(** * Batched level-wise decision-tree builder: host driver and objectives

    Shallow embedding of
      - cpp/src/decisiontree/batched-levelalgo/builder_base.cuh  (struct Builder)
      - the objective functions of metrics.cuh (GiniObjectiveFunction,
        EntropyObjectiveFunction, regressionMetricGain)

    Conventions of the embedding.
      - [IdxT] is [int] ([std::min(sampledCols, n_blks_for_cols)] forces it).
        [int] values are integers of [Z]; the product that sizes the
        histograms is reduced to 32 bits in two's complement ([int_wrap]), as
        the compiled code does.  Node and sample counts stay far below
        [2^31] and are not reduced.
      - [size_t] values are integers of [Z] reduced modulo [2^64] after every
        operation ([Raft.wrap]).
      - [DataT] (float or double): [regressionMetricGain] is embedded over
        IEEE-754 binary32 and binary64 with round-to-nearest-even, one
        rounding per operation of the source ([SpecFloat]).  The two
        classification objectives are embedded over the exact rationals [Q],
        with [inject_Z] and truncation toward zero as conversions; what is
        proved of them is about members and thresholds, not about rounding.
      - device kernels are not part of the embedded files; the contents of
        the device workspace and what the kernels write back to the host
        are parameters of the driver. *)

From Stdlib Require Import String ZArith List Lia Bool QArith Qround SpecFloat.
Import ListNotations.
Open Scope Z_scope.

(** ** raft helpers (external library) *)

Module Raft.

(** [size_t] is a 64-bit unsigned integer. *)
Definition size_bits : Z := 64.
Definition wrap (x : Z) : Z := x mod 2 ^ size_bits.

(** [raft::ceildiv(a, b) = (a + b - 1) / b] on [size_t]. *)
Definition ceildiv (a b : Z) : Z := wrap (a + b - 1) / b.

(** [raft::alignTo(a, b) = ceildiv(a, b) * b] on [size_t]. *)
Definition alignTo (a b : Z) : Z := wrap (ceildiv a b * b).

End Raft.

(** [int] is a 32-bit integer in two's complement: the value an [int]
    computation leaves when it overflows. *)
Definition int_bits : Z := 32.
Definition int_wrap (x : Z) : Z :=
  (x + 2 ^ (int_bits - 1)) mod 2 ^ int_bits - 2 ^ (int_bits - 1).

(** ** Configuration and input view *)

(** [CRITERION] is a C enum; any integer can be stored in it. *)
Definition CRITERION := Z.

(** The fields of [DecisionTreeParams] that the builder reads. *)
Record DecisionTreeParams := mkParams {
  max_depth : Z;
  max_leaves : Z;
  n_bins : Z;
  min_samples_leaf : Z;
  min_samples_split : Z;
  min_impurity_decrease : Q;
  max_batch_size : Z;
  split_criterion : CRITERION
}.

(** Pointers are addresses; [nullptr] is address 0. *)
Definition ptr := Z.
Definition nullptr : ptr := 0.

Record Input := mkInput {
  in_data : ptr;
  in_labels : ptr;
  in_M : Z;
  in_N : Z;
  in_nSampledRows : Z;
  in_nSampledCols : Z;
  in_rowids : ptr;
  in_nclasses : Z;
  in_quantiles : ptr
}.

(** Work enqueued on the device stream. *)
Inductive Region :=
  | R_n_nodes | R_hist | R_done_count | R_mutex | R_block_sync
  | R_n_leaves | R_n_depth | R_splits | R_curr_nodes | R_next_nodes.

Inductive DeviceOp :=
  | MemsetAsync (r : Region) (bytes : Z)
  | UpdateDevice (r : Region) (count : Z)
  | UpdateHost (r : Region) (count : Z)
  | LaunchInitSplit (batchSize : Z)
  | LaunchComputeSplit (col batchSize : Z)
  | LaunchNodeSplit (batchSize : Z)
  | StreamSynchronize.

(** Result of a call that may hit an [ASSERT]. *)
Inductive outcome (A : Type) :=
  | Returned (a : A)
  | AssertFailed (msg : string).
Arguments Returned {A} a.
Arguments AssertFailed {A} msg.

(** Sizes of the template-dependent types, in bytes. *)
Record TypeSizes := mkSizes {
  sizeof_IdxT : Z;
  sizeof_BinT : Z;
  sizeof_SplitT : Z;
  sizeof_NodeT : Z
}.
Definition sizeof_int : Z := 4.

(** ** struct Builder *)

Record Builder := mkBuilder {
  params : DecisionTreeParams;
  input : Input;
  maxNodes : Z;
  nHistBins : Z;
  block_sync_size : Z;
  treeid : Z;
  seed : Z;
  (* device regions *)
  n_nodes : ptr;
  hist : ptr;
  done_count : ptr;
  mutex : ptr;
  block_sync : ptr;
  n_leaves : ptr;
  n_depth : ptr;
  splits : ptr;
  curr_nodes : ptr;
  next_nodes : ptr;
  (* host *)
  h_n_nodes : ptr;
  h_total_nodes : Z;
  node_start : Z;
  node_end : Z;
  n_blks_for_cols : Z
}.

(** [const size_t alignValue = 512]. *)
Definition alignValue : Z := 512.

Definition calculateAlignedBytes (actualSize : Z) : Z :=
  Raft.alignTo actualSize alignValue.

(** [IdxT(pow(2, max_depth + 1) - 1)]: [pow] works on doubles and the result is
    truncated toward zero.  For a negative exponent [e >= -53] the difference
    lies in (-1, -1/2] and truncates to 0; below that it rounds to -1. *)
Definition dense_tree_nodes (max_depth : Z) : Z :=
  let e := max_depth + 1 in
  if 0 <=? e then 2 ^ e - 1
  else if -53 <=? e then 0 else -1.

Section Workspace.

Variable sz : TypeSizes.

(** The ten device regions, in layout order, with their unaligned byte
    sizes as [workspaceSize] and [assignWorkspace] both compute them. *)
Definition region_bytes (max_batch n_col_blks nhist bsync : Z) : list Z :=
  [ Raft.wrap (sizeof_IdxT sz);                                (* n_nodes *)
    Raft.wrap (sizeof_BinT sz * Raft.wrap nhist);              (* hist *)
    Raft.wrap (Raft.wrap (sizeof_int * Raft.wrap max_batch)
               * Raft.wrap n_col_blks);                        (* done_count *)
    Raft.wrap (sizeof_int * Raft.wrap max_batch);              (* mutex *)
    Raft.wrap bsync;                                           (* block_sync *)
    Raft.wrap (sizeof_IdxT sz);                                (* n_leaves *)
    Raft.wrap (sizeof_IdxT sz);                                (* n_depth *)
    Raft.wrap (sizeof_SplitT sz * Raft.wrap max_batch);        (* splits *)
    Raft.wrap (sizeof_NodeT sz * Raft.wrap max_batch);         (* curr_nodes *)
    Raft.wrap (Raft.wrap (sizeof_NodeT sz * 2)
               * Raft.wrap max_batch)                          (* next_nodes *)
  ].

(** [d_wsize = 0; d_wsize += calculateAlignedBytes(...); ...] *)
Definition accumulate_aligned (sizes : list Z) : Z :=
  fold_left (fun d s => Raft.wrap (d + calculateAlignedBytes s)) sizes 0.

(** [Builder::workspaceSize].  The builder is returned in the state the
    call leaves it in, also when an [ASSERT] throws; the second component
    is the device work the call enqueued; the third is
    [(d_wsize, h_wsize)]. *)
Definition workspaceSize (b : Builder) (treeid' seed' : Z)
           (p : DecisionTreeParams) (data labels : ptr)
           (totalRows totalCols sampledRows sampledCols : Z)
           (rowids : ptr) (nclasses : Z) (quantiles : ptr)
  : Builder * list DeviceOp * outcome (Z * Z) :=
  if quantiles =? nullptr then
    (b, [], AssertFailed
              "Currently quantiles need to be computed before this call!")
  else
    let n_blks := Z.min sampledCols (n_blks_for_cols b) in
    let inp := mkInput data labels totalRows totalCols sampledRows
                       sampledCols rowids nclasses (in_quantiles (input b)) in
    if negb (1 <=? nclasses) then
      (mkBuilder p inp (maxNodes b) (nHistBins b) (block_sync_size b)
                 treeid' seed'
                 (n_nodes b) (hist b) (done_count b) (mutex b) (block_sync b)
                 (n_leaves b) (n_depth b) (splits b) (curr_nodes b)
                 (next_nodes b) (h_n_nodes b) (h_total_nodes b)
                 (node_start b) (node_end b) n_blks,
       [], AssertFailed "nclasses should be at least 1")
    else
      let inp := mkInput data labels totalRows totalCols sampledRows
                         sampledCols rowids nclasses quantiles in
      let max_batch := max_batch_size p in
      let n_col_blks := n_blks in
      let nhist :=
        int_wrap (max_batch * (1 + n_bins p) * n_col_blks * nclasses) in
      let maxn := if max_depth p <? 13 then dense_tree_nodes (max_depth p)
                  else 8191 in
      let bsync := 0 in
      let d_wsize :=
        accumulate_aligned (region_bytes max_batch n_col_blks nhist bsync) in
      let h_wsize := calculateAlignedBytes (Raft.wrap (sizeof_IdxT sz)) in
      (mkBuilder p inp maxn nhist bsync treeid' seed'
                 (n_nodes b) (hist b) (done_count b) (mutex b) (block_sync b)
                 (n_leaves b) (n_depth b) (splits b) (curr_nodes b)
                 (next_nodes b) (h_n_nodes b) (h_total_nodes b)
                 (node_start b) (node_end b) n_blks,
       [], Returned (d_wsize, h_wsize)).

(** [Builder::assignWorkspace]: binds the region pointers by bumping
    [d_wspace] past each aligned region. *)
Definition assignWorkspace (b : Builder) (d_wspace h_wspace : ptr) : Builder :=
  let max_batch := max_batch_size (params b) in
  let n_col_blks := n_blks_for_cols b in
  let bump (d s : Z) := Raft.wrap (d + calculateAlignedBytes s) in
  let p_n_nodes := d_wspace in
  let d1 := bump d_wspace (Raft.wrap (sizeof_IdxT sz)) in
  let p_hist := d1 in
  let d2 := bump d1 (Raft.wrap (sizeof_BinT sz * Raft.wrap (nHistBins b))) in
  let p_done_count := d2 in
  let d3 := bump d2 (Raft.wrap (Raft.wrap (sizeof_int * Raft.wrap max_batch)
                                * Raft.wrap n_col_blks)) in
  let p_mutex := d3 in
  let d4 := bump d3 (Raft.wrap (sizeof_int * Raft.wrap max_batch)) in
  let p_block_sync := d4 in
  let d5 := bump d4 (Raft.wrap (block_sync_size b)) in
  let p_n_leaves := d5 in
  let d6 := bump d5 (Raft.wrap (sizeof_IdxT sz)) in
  let p_n_depth := d6 in
  let d7 := bump d6 (Raft.wrap (sizeof_IdxT sz)) in
  let p_splits := d7 in
  let d8 := bump d7 (Raft.wrap (sizeof_SplitT sz * Raft.wrap max_batch)) in
  let p_curr_nodes := d8 in
  let d9 := bump d8 (Raft.wrap (sizeof_NodeT sz * Raft.wrap max_batch)) in
  let p_next_nodes := d9 in
  mkBuilder (params b) (input b) (maxNodes b) (nHistBins b)
            (block_sync_size b) (treeid b) (seed b)
            p_n_nodes p_hist p_done_count p_mutex p_block_sync
            p_n_leaves p_n_depth p_splits p_curr_nodes p_next_nodes
            h_wspace (h_total_nodes b) (node_start b) (node_end b)
            (n_blks_for_cols b).

(** The region pointers of a builder, in layout order. *)
Definition region_pointers (b : Builder) : list ptr :=
  [ n_nodes b; hist b; done_count b; mutex b; block_sync b;
    n_leaves b; n_depth b; splits b; curr_nodes b; next_nodes b ].

End Workspace.

(** A builder as its default member initialisers leave it:
    [n_blks_for_cols = 10]; every other member holds whatever [junk] held. *)
Definition fresh_builder (junk : Builder) : Builder :=
  mkBuilder (params junk) (input junk) (maxNodes junk) (nHistBins junk)
            (block_sync_size junk) (treeid junk) (seed junk)
            (n_nodes junk) (hist junk) (done_count junk) (mutex junk)
            (block_sync junk) (n_leaves junk) (n_depth junk) (splits junk)
            (curr_nodes junk) (next_nodes junk) (h_n_nodes junk)
            (h_total_nodes junk) (node_start junk) (node_end junk) 10.

(** ** Objective functions (metrics.cuh) *)

(** The two instantiations of [DataT] and [NumericLimits<DataT>::kMax]. *)
Inductive DataType := Float | Double.

Definition kMax (t : DataType) : Q :=
  match t with
  | Float => inject_Z ((2 ^ 24 - 1) * 2 ^ 104)      (* __FLT_MAX__ *)
  | Double => inject_Z ((2 ^ 53 - 1) * 2 ^ 971)     (* __DBL_MAX__ *)
  end.

(** Conversion [DataT -> IdxT]: truncation toward zero. *)
Definition Qtrunc (q : Q) : Z := Z.quot (Qnum q) (Zpos (Qden q)).

(** [DataT] as IEEE-754 binary32 ([float]) or binary64 ([double]): numbers
    of [spec_float], every operation rounded to nearest, ties to even. *)
Definition fp_prec (t : DataType) : Z :=
  match t with Float => 24 | Double => 53 end.
Definition fp_emax (t : DataType) : Z :=
  match t with Float => 128 | Double => 1024 end.

Definition fp_add (t : DataType) : spec_float -> spec_float -> spec_float :=
  SFadd (fp_prec t) (fp_emax t).
Definition fp_sub (t : DataType) : spec_float -> spec_float -> spec_float :=
  SFsub (fp_prec t) (fp_emax t).
Definition fp_mul (t : DataType) : spec_float -> spec_float -> spec_float :=
  SFmul (fp_prec t) (fp_emax t).
Definition fp_div (t : DataType) : spec_float -> spec_float -> spec_float :=
  SFdiv (fp_prec t) (fp_emax t).
Definition fp_opp : spec_float -> spec_float := SFopp.

(** [a <= b] on [DataT]; false when either side is a NaN. *)
Definition fp_leb : spec_float -> spec_float -> bool := SFleb.

(** The [DataT] nearest to [m * 2^e], and the conversion [IdxT -> DataT]. *)
Definition fp_of_dyadic (t : DataType) (m e : Z) : spec_float :=
  binary_normalize (fp_prec t) (fp_emax t) m e false.
Definition fp_of_int (t : DataType) (z : Z) : spec_float :=
  fp_of_dyadic t z 0.

(** [NumericLimits<DataT>::kMax] as a [DataT]. *)
Definition fp_kMax (t : DataType) : spec_float :=
  match t with
  | Float => S754_finite false 16777215 104
  | Double => S754_finite false 9007199254740991 971
  end.

(** [Split<DataT, IdxT>], built in the source as
    [{sbins[i], col, gain, nLeft}]; [T] is what stands for [DataT]:
    [spec_float] for [regressionMetricGain], [Q] for the classification
    objectives. *)
Record SplitT (T : Type) := mkSplit {
  threshold : T;
  column : Z;
  gain : T;
  nLeft : Z
}.
Arguments mkSplit {T} _ _ _ _.
Arguments threshold {T} _.
Arguments column {T} _.
Arguments gain {T} _.
Arguments nLeft {T} _.

Definition Split : Type := SplitT Q.

(** Class indices [0 .. nclasses-1] of a [for (j = 0; j < nclasses; ++j)]. *)
Definition classes (nclasses : Z) : list Z :=
  map Z.of_nat (seq 0 (Z.to_nat nclasses)).

(** Indices visited by [for (i = start; i < bound; i += step)]; with
    [step >= 1], as block dimensions and column blocks are, [bound - start]
    iterations are enough. *)
Fixpoint strided (fuel : nat) (i step bound : Z) : list Z :=
  match fuel with
  | O => []
  | S f => if i <? bound then i :: strided f (i + step) step bound else []
  end.

(** Bin indices visited by
    [for (i = threadIdx.x; i < nbins; i += blockDim.x)]. *)
Definition thread_bins (threadIdx blockDim nbins : Z) : list Z :=
  strided (Z.to_nat (nbins - threadIdx)) threadIdx blockDim nbins.

(** Objects of the two classification objectives: their three members. *)
Record GiniObjectiveFunction := mkGini {
  g_nclasses : Z;
  g_min_impurity_decrease : Q;
  g_min_samples_leaf : Z
}.

Record EntropyObjectiveFunction := mkEntropy {
  e_nclasses : Z;
  e_min_impurity_decrease : Q;
  e_min_samples_leaf : Z
}.

(** [GiniObjectiveFunction(DataT nclasses, IdxT min_impurity_decrease,
                           IdxT min_samples_leaf)]:
    the parameters are converted to the member types. *)
Definition GiniObjectiveFunction_ctor
           (nclasses : Q) (min_impurity_decrease : Z) (min_samples_leaf : Z)
  : GiniObjectiveFunction :=
  mkGini (Qtrunc nclasses) (inject_Z min_impurity_decrease) min_samples_leaf.

(** [EntropyObjectiveFunction(DataT nclasses, IdxT min_impurity_decreas,
                              IdxT min_samples_leafe)
       : nclasses(nclasses),
         min_impurity_decrease(min_impurity_decrease),
         min_samples_leaf(min_samples_leaf)]:
    the last two initialisers name the members themselves, so each member is
    initialised from its own storage; [this] is what that storage held. *)
Definition EntropyObjectiveFunction_ctor (this : EntropyObjectiveFunction)
           (nclasses : Q) (min_impurity_decreas : Z) (min_samples_leafe : Z)
  : EntropyObjectiveFunction :=
  mkEntropy (Qtrunc nclasses)
            (e_min_impurity_decrease this)
            (e_min_samples_leaf this).

Section Metrics.

Variable DataT : DataType.

(** [raft::myLog] (external). *)
Variable myLog : Q -> Q.

(** [Split::update] and the default-constructed [Split] (split.cuh). *)
Variable Split_update : Split -> Split -> Split.
Variable Split_default : Split.

(** [shist] and [sbins] are arrays in shared memory, read by index. *)
Variable shist : Z -> Z.
Variable sbins : Z -> Q.

Definition count_left (nclasses nbins i : Z) : Z :=
  fold_left (fun nLeft j => nLeft + shist (2 * nbins * j + i))
            (classes nclasses) 0.

(** Body of the class loop of [GiniObjectiveFunction::Gain]. *)
Definition gini_class_step (invlen invLeft invRight : Q) (nbins i : Z)
           (gain : Q) (j : Z) : Q :=
  let lval_i := shist (2 * nbins * j + i) in
  let lval := inject_Z lval_i in
  let gain := (gain + lval * invLeft * lval * invlen)%Q in
  let val_i := 0 + lval_i in
  let rval_i := shist (2 * nbins * j + nbins + i) in
  let rval := inject_Z rval_i in
  let gain := (gain + rval * invRight * rval * invlen)%Q in
  let val_i := val_i + rval_i in
  let val := (inject_Z val_i * invlen)%Q in
  (gain - val * val)%Q.

(** One iteration of the bin loop of [GiniObjectiveFunction::Gain]:
    the candidate handed to [sp.update]. *)
(** [gain] as the test on [min_samples_leaf] and the class loop leave
    it, before the test on [min_impurity_decrease]. *)
Definition Gini_split_gain (o : GiniObjectiveFunction)
           (len nbins i : Z) : Q :=
  let invlen := (1 / inject_Z len)%Q in
  let nLeft := count_left (g_nclasses o) nbins i in
  let nRight := len - nLeft in
  if (nLeft <? g_min_samples_leaf o) || (nRight <? g_min_samples_leaf o)
  then (- kMax DataT)%Q
  else
    let invLeft := (1 / inject_Z nLeft)%Q in
    let invRight := (1 / inject_Z nRight)%Q in
    fold_left (gini_class_step invlen invLeft invRight nbins i)
              (classes (g_nclasses o)) 0%Q.

Definition Gini_candidate (o : GiniObjectiveFunction)
           (col len nbins i : Z) : Split :=
  let nLeft := count_left (g_nclasses o) nbins i in
  let gain := Gini_split_gain o len nbins i in
  let gain :=
    if Qle_bool gain (g_min_impurity_decrease o) then (- kMax DataT)%Q
    else gain in
  mkSplit (sbins i) col gain nLeft.

Definition Gini_Gain (o : GiniObjectiveFunction)
           (threadIdx blockDim col len nbins : Z) : Split :=
  fold_left (fun sp i => Split_update sp (Gini_candidate o col len nbins i))
            (thread_bins threadIdx blockDim nbins) Split_default.

(** Body of the class loop of [EntropyObjectiveFunction::Gain]. *)
Definition entropy_class_step (invlen invLeft invRight : Q) (nbins i : Z)
           (gain : Q) (j : Z) : Q :=
  let lval_i := shist (2 * nbins * j + i) in
  let gain :=
    if negb (lval_i =? 0) then
      let lval := inject_Z lval_i in
      (gain + myLog (lval * invLeft) / myLog (inject_Z 2) * lval * invlen)%Q
    else gain in
  let val_i := 0 + lval_i in
  let rval_i := shist (2 * nbins * j + nbins + i) in
  let gain :=
    if negb (rval_i =? 0) then
      let rval := inject_Z rval_i in
      (gain + myLog (rval * invRight) / myLog (inject_Z 2) * rval * invlen)%Q
    else gain in
  let val_i := val_i + rval_i in
  if negb (val_i =? 0) then
    let val := (inject_Z val_i * invlen)%Q in
    (gain - val * myLog val / myLog (inject_Z 2))%Q
  else gain.

Definition Entropy_split_gain (o : EntropyObjectiveFunction)
           (len nbins i : Z) : Q :=
  let invlen := (1 / inject_Z len)%Q in
  let nLeft := count_left (e_nclasses o) nbins i in
  let nRight := len - nLeft in
  if (nLeft <? e_min_samples_leaf o) || (nRight <? e_min_samples_leaf o)
  then (- kMax DataT)%Q
  else
    let invLeft := (1 / inject_Z nLeft)%Q in
    let invRight := (1 / inject_Z nRight)%Q in
    fold_left (entropy_class_step invlen invLeft invRight nbins i)
              (classes (e_nclasses o)) 0%Q.

Definition Entropy_candidate (o : EntropyObjectiveFunction)
           (col len nbins i : Z) : Split :=
  let nLeft := count_left (e_nclasses o) nbins i in
  let gain := Entropy_split_gain o len nbins i in
  let gain :=
    if Qle_bool gain (e_min_impurity_decrease o) then (- kMax DataT)%Q
    else gain in
  mkSplit (sbins i) col gain nLeft.

Definition Entropy_Gain (o : EntropyObjectiveFunction)
           (threadIdx blockDim col len nbins : Z) : Split :=
  fold_left (fun sp i => Split_update sp (Entropy_candidate o col len nbins i))
            (thread_bins threadIdx blockDim nbins) Split_default.

End Metrics.

Section RegressionMetric.

Variable DataT : DataType.

(** [Split::update] on splits of [DataT] (split.cuh). *)
Variable Split_update :
  SplitT spec_float -> SplitT spec_float -> SplitT spec_float.

(** [sbins], [slabel_cdf] and [scount_cdf] are arrays in shared memory. *)
Variable sbins : Z -> spec_float.
Variable slabel_cdf : Z -> spec_float.
Variable scount_cdf : Z -> Z.

(** [gain] of one iteration of the bin loop of [regressionMetricGain], as
    the test on [min_samples_leaf] and the arithmetic leave it, before the
    test on [min_impurity_decrease].  [-label_sum * label_sum / len] is
    [((-label_sum) * label_sum) / DataT(len)]. *)
Definition regression_split_gain (label_sum : spec_float) (len : Z)
           (min_samples_leaf' : Z) (i : Z) : spec_float :=
  let invlen := fp_div DataT (fp_of_int DataT 1) (fp_of_int DataT len) in
  let nLeft := scount_cdf i in
  let nRight := len - nLeft in
  if (nLeft <? min_samples_leaf') || (nRight <? min_samples_leaf')
  then fp_opp (fp_kMax DataT)
  else
    let parent_obj :=
      fp_div DataT (fp_mul DataT (fp_opp label_sum) label_sum)
             (fp_of_int DataT len) in
    let left_obj :=
      fp_div DataT (fp_opp (fp_mul DataT (slabel_cdf i) (slabel_cdf i)))
             (fp_of_int DataT nLeft) in
    let right_label_sum := fp_sub DataT (slabel_cdf i) label_sum in
    let right_obj :=
      fp_div DataT (fp_opp (fp_mul DataT right_label_sum right_label_sum))
             (fp_of_int DataT nRight) in
    let gain := fp_sub DataT parent_obj (fp_add DataT left_obj right_obj) in
    fp_mul DataT gain invlen.

(** The candidate one iteration hands to [sp.update]. *)
Definition regression_candidate (label_sum : spec_float) (col len nbins : Z)
           (min_samples_leaf' : Z) (min_impurity_decrease' : spec_float)
           (i : Z) : SplitT spec_float :=
  let nLeft := scount_cdf i in
  let gain := regression_split_gain label_sum len min_samples_leaf' i in
  let gain :=
    if fp_leb gain min_impurity_decrease' then fp_opp (fp_kMax DataT)
    else gain in
  mkSplit (sbins i) col gain nLeft.

Definition regressionMetricGain (label_sum : spec_float)
           (sp : SplitT spec_float)
           (threadIdx blockDim col len nbins : Z)
           (min_samples_leaf' : Z) (min_impurity_decrease' : spec_float)
  : SplitT spec_float :=
  fold_left
    (fun sp i =>
       Split_update sp (regression_candidate label_sum col len nbins
                          min_samples_leaf' min_impurity_decrease' i))
    (thread_bins threadIdx blockDim nbins) sp.

End RegressionMetric.

(** The objective a [Builder<ObjectiveT>] is instantiated with: how
    [computeSplit] gets an object from the three constructor arguments.
    [storage] is the memory the object is constructed in. *)
Class ObjectiveT (O : Type) := {
  construct : O -> Q -> Z -> Z -> O;
  NumClasses : O -> Z;
  leaf_threshold : O -> Z;        (* member compared with nLeft and nRight *)
  impurity_threshold : O -> Q     (* member compared with the gain *)
}.

#[export] Instance Gini_ObjectiveT : ObjectiveT GiniObjectiveFunction := {
  construct _ := GiniObjectiveFunction_ctor;
  NumClasses := g_nclasses;
  leaf_threshold := g_min_samples_leaf;
  impurity_threshold := g_min_impurity_decrease
}.

#[export] Instance Entropy_ObjectiveT : ObjectiveT EntropyObjectiveFunction := {
  construct := EntropyObjectiveFunction_ctor;
  NumClasses := e_nclasses;
  leaf_threshold := e_min_samples_leaf;
  impurity_threshold := e_min_impurity_decrease
}.

(** [ObjectiveT objective(input.nclasses, params.min_impurity_decrease,
                          params.min_samples_split);] in [computeSplit].
    The arguments are converted to the constructor's parameter types
    [(DataT, IdxT, IdxT)]. *)
Definition computeSplit_objective {O : Type} `{ObjectiveT O}
           (storage : O) (b : Builder) : O :=
  construct storage
            (inject_Z (in_nclasses (input b)))
            (Qtrunc (min_impurity_decrease (params b)))
            (min_samples_split (params b)).

(** ** The training loop of the driver *)

(** Modelled from the spec: node.cuh is not among the embedded files.  A node
    is [{start, count, depth, prediction, split_feature, split_threshold,
    left_child_id, is_leaf, unique_id}]. *)
Record Node := mkNode {
  nd_start : Z;
  nd_count : Z;
  nd_depth : Z;
  nd_prediction : Q;
  nd_split_feature : Z;
  nd_split_threshold : Q;
  nd_left_child_id : Z;
  nd_is_leaf : bool;
  nd_unique_id : Z
}.

(** Modelled from the spec: [Node::initSpNode] sets [is_leaf = false],
    [split_feature = -1], [left_child_id = -1]. *)
Definition initSpNode (n : Node) : Node :=
  mkNode (nd_start n) (nd_count n) (nd_depth n) (nd_prediction n)
         (-1) (nd_split_threshold n) (-1) false (nd_unique_id n).

(** Host-side members written by [init], [train] and [updateNodeRange]. *)
Definition set_frontier (b : Builder) (total nstart nend : Z) : Builder :=
  mkBuilder (params b) (input b) (maxNodes b) (nHistBins b)
            (block_sync_size b) (treeid b) (seed b)
            (n_nodes b) (hist b) (done_count b) (mutex b) (block_sync b)
            (n_leaves b) (n_depth b) (splits b) (curr_nodes b) (next_nodes b)
            (h_n_nodes b) total nstart nend (n_blks_for_cols b).

(** What one pass of the loop body decides. *)
Inductive loop_result (S : Type) :=
  | Break (s : S)
  | Continue (s : S).
Arguments Break {S} s.
Arguments Continue {S} s.

(** Result of the device work of one [doSplit]: the state the kernels
    leave the device in, the updated batch in [curr_nodes], and the new
    children in [next_nodes], of which [n_nodes] holds the number. *)
Record DeviceResult (D : Type) := mkDeviceResult {
  dr_state : D;
  dr_curr_nodes : list Node;
  dr_next_nodes : list Node
}.
Arguments mkDeviceResult {D} _ _ _.
Arguments dr_state {D} _.
Arguments dr_curr_nodes {D} _.
Arguments dr_next_nodes {D} _.

(** What [train] works on: the builder, the host vector [h_nodes] and the
    contents of the device workspace. *)
Record TrainState (D : Type) := mkTrainState {
  ts_builder : Builder;
  ts_nodes : list Node;
  ts_device : D
}.
Arguments mkTrainState {D} _ _ _.
Arguments ts_builder {D} _.
Arguments ts_nodes {D} _.
Arguments ts_device {D} _.

(** The nodes [doSplit] copies to the device:
    [batchSize] nodes from [h_nodes.data() + node_start]. *)
Definition batch_of (b : Builder) (h : list Node) : list Node :=
  firstn (Z.to_nat (node_end b - node_start b))
         (skipn (Z.to_nat (node_start b)) h).

Section Driver.

Variable sz : TypeSizes.

(** A value-initialised [Node], as [std::vector::resize] appends. *)
Variable Node_default : Node.

(** [Builder::isRegression()]: whether [DataT] and [LabelT] are the same
    type. *)
Variable isRegression : bool.

(** Contents of the device workspace (counters, histograms, splits). *)
Variable DeviceState : Type.

(** Effect of the memsets of [init] on the device. *)
Variable device_reset : DeviceState -> DeviceState.

(** The device side of one [doSplit] (the kernels are not part of the
    embedded files): from the device contents, [h_total_nodes] and the batch
    copied to [curr_nodes]. *)
Variable device : DeviceState -> Z -> list Node -> DeviceResult DeviceState.

(** [n_leaves] and [n_depth] as [train] reads them back. *)
Variable device_counters : DeviceState -> Z * Z.

(** [std::vector::resize]. *)
Definition resize (v : list Node) (n : nat) : list Node :=
  firstn n v ++ repeat Node_default (n - length v).

(** [raft::update_host(v.data() + off, src, len(src))]: overwrites the
    elements at [off ..].  The copy is taken as complete when it is
    enqueued. *)
Definition write_at (off : nat) (src v : list Node) : list Node :=
  firstn off v ++ src ++ skipn (off + length src) v.

(** [Builder::init]. *)
Definition init (b : Builder) (h_nodes : list Node) (dev : DeviceState)
  : TrainState DeviceState * list DeviceOp :=
  let max_batch := max_batch_size (params b) in
  let n_col_blks := n_blks_for_cols b in
  let ops :=
    [ MemsetAsync R_done_count
                  (Raft.wrap (Raft.wrap (sizeof_int * Raft.wrap max_batch)
                              * Raft.wrap n_col_blks));
      MemsetAsync R_mutex (Raft.wrap (sizeof_int * Raft.wrap max_batch));
      MemsetAsync R_n_leaves (sizeof_IdxT sz);
      MemsetAsync R_n_depth (sizeof_IdxT sz) ]
    ++ (if isRegression
        then [ MemsetAsync R_block_sync (Raft.wrap (block_sync_size b)) ]
        else []) in
  let h := resize h_nodes 1 in
  let root := initSpNode (hd Node_default h) in
  let root := mkNode 0 (in_nSampledRows (input b)) 0
                     (nd_prediction root) (nd_split_feature root)
                     (nd_split_threshold root) (nd_left_child_id root)
                     (nd_is_leaf root) 0 in
  (mkTrainState (set_frontier b 1 0 1) (root :: tl h) (device_reset dev), ops).

(** [Builder::isOver]. *)
Definition isOver (b : Builder) : bool := node_end b =? h_total_nodes b.

(** [Builder::updateNodeRange]. *)
Definition updateNodeRange (b : Builder) : Builder :=
  let node_start' := node_end b in
  let nodes_remaining := h_total_nodes b - node_end b in
  let node_end' :=
    Z.min nodes_remaining (max_batch_size (params b)) + node_end b in
  set_frontier b (h_total_nodes b) node_start' node_end'.

(** Whether the column loop of [doSplit],
    [for (c = 0; c < input.nSampledCols; c += n_col_blks)], comes to an end.
    With [n_blks_for_cols <= 0] and a column to visit it does not: [c] never
    reaches the bound, and [computeSplit] divides by [colBlks = 0] or asks
    for a grid of negative extent. *)
Definition column_loop_ends (b : Builder) : bool :=
  (in_nSampledCols (input b) <=? 0) || (1 <=? n_blks_for_cols b).

(** Start columns of the calls to [computeSplit] in a column loop that
    ends ([column_loop_ends]); there are at most [nSampledCols] of them. *)
Definition column_blocks (b : Builder) : list Z :=
  strided (Z.to_nat (in_nSampledCols (input b))) 0 (n_blks_for_cols b)
          (in_nSampledCols (input b)).

(** [Builder::doSplit], when its column loop ends: the state it leaves, the
    returned [*h_n_nodes] and the work enqueued. *)
Definition doSplit (st : TrainState DeviceState)
  : TrainState DeviceState * Z * list DeviceOp :=
  let b := ts_builder st in
  let h_nodes := ts_nodes st in
  let batchSize := node_end b - node_start b in
  let r := device (ts_device st) (h_total_nodes b) (batch_of b h_nodes) in
  let new_nodes := Z.of_nat (length (dr_next_nodes r)) in
  let h := resize h_nodes
                  (length h_nodes + Z.to_nat batchSize
                   + length (dr_next_nodes r)) in
  let h := write_at (Z.to_nat (node_start b)) (dr_curr_nodes r) h in
  let h := write_at (Z.to_nat (h_total_nodes b)) (dr_next_nodes r) h in
  let ops :=
    [ MemsetAsync R_n_nodes (sizeof_IdxT sz);
      LaunchInitSplit batchSize;
      UpdateDevice R_curr_nodes batchSize ]
    ++ flat_map (fun c =>
                   [ MemsetAsync R_hist
                       (Raft.wrap (sizeof_BinT sz * Raft.wrap (nHistBins b)));
                     LaunchComputeSplit c batchSize ])
                (column_blocks b)
    ++ [ LaunchNodeSplit batchSize;
         UpdateHost R_n_nodes 1;
         StreamSynchronize;
         UpdateHost R_curr_nodes batchSize;
         UpdateHost R_next_nodes new_nodes ] in
  (mkTrainState b h (dr_state r), new_nodes, ops).

(** Body of [while (true)] in [Builder::train]. *)
Definition loop_body (st : TrainState DeviceState)
  : loop_result (TrainState DeviceState) :=
  let '(st1, new_nodes, _) := doSplit st in
  let b := ts_builder st1 in
  let b := set_frontier b (h_total_nodes b + new_nodes)
                        (node_start b) (node_end b) in
  if (new_nodes =? 0) && isOver b
  then Break (mkTrainState b (ts_nodes st1) (ts_device st1))
  else Continue (mkTrainState (updateNodeRange b) (ts_nodes st1)
                              (ts_device st1)).

(** [while (true)] of [Builder::train], for at most [fuel] batches.  There
    is no result when the fuel runs out or when a [doSplit] does not
    return. *)
Fixpoint train_loop (fuel : nat) (st : TrainState DeviceState)
  : option (TrainState DeviceState) :=
  match fuel with
  | O => None
  | S f =>
      if column_loop_ends (ts_builder st) then
        match loop_body st with
        | Break st' => Some st'
        | Continue st' => train_loop f st'
        end
      else None
  end.

(** [Builder::train]: the state when it returns, with [num_leaves] and
    [depth] as read back from the device, if it returns within [fuel]
    batches. *)
Definition train (fuel : nat) (b : Builder) (h_nodes : list Node)
           (dev : DeviceState)
  : option (TrainState DeviceState * Z * Z) :=
  let '(st0, _) := init b h_nodes dev in
  match train_loop fuel st0 with
  | Some st =>
      let '(num_leaves, depth) := device_counters (ts_device st) in
      Some (st, num_leaves, depth)
  | None => None
  end.

(** States at the top of the loop of [train]. *)
Inductive loop_top (b : Builder) (h_nodes : list Node) (dev : DeviceState)
  : TrainState DeviceState -> Prop :=
| top_init : loop_top b h_nodes dev (fst (init b h_nodes dev))
| top_next st st' :
    loop_top b h_nodes dev st -> loop_body st = Continue st' ->
    loop_top b h_nodes dev st'.

End Driver.

Arguments init sz Node_default isRegression {DeviceState} device_reset
  b h_nodes dev.
Arguments doSplit sz Node_default {DeviceState} device st.
Arguments loop_body sz Node_default {DeviceState} device st.
Arguments train_loop sz Node_default {DeviceState} device fuel st.
Arguments train sz Node_default isRegression {DeviceState} device_reset device
  device_counters fuel b h_nodes dev.
Arguments loop_top sz Node_default isRegression {DeviceState} device_reset
  device b h_nodes dev _.
Arguments top_init sz Node_default isRegression {DeviceState} device_reset
  device b h_nodes dev.
Arguments top_next sz Node_default isRegression {DeviceState} device_reset
  device b h_nodes dev st st' _ _.

(** ** Grid sizing of the kernel launches *)

(** [raft::ceildiv(a, b) = (a + b - 1) / b] on [int]; the division of C
    truncates toward zero. *)
Definition ceildiv_int (a b : Z) : Z := Z.quot (a + b - 1) b.

(** [Builder::n_blks_for_rows]: [mpcount] and [maxblks] are what
    [cudaDeviceGetAttribute] and
    [cudaOccupancyMaxActiveBlocksPerMultiprocessor] report. *)
Definition n_blks_for_rows (mpcount maxblks : Z) (gridDimy gridDimz : Z) : Z :=
  let n_blks := maxblks * mpcount in
  ceildiv_int n_blks (gridDimy * gridDimz).

(** [colBlks] of [Builder::computeSplit]:
    [std::min(n_blks_for_cols, input.nSampledCols - col)]. *)
Definition computeSplit_colBlks (b : Builder) (col : Z) : Z :=
  Z.min (n_blks_for_cols b) (in_nSampledCols (input b) - col).

(** [dim3 grid(n_blks_for_rows, colBlks, batchSize)] of
    [Builder::computeSplit]. *)
Definition computeSplit_grid (mpcount maxblks : Z) (b : Builder)
           (col batchSize : Z) : Z * Z * Z :=
  let colBlks := computeSplit_colBlks b col in
  (n_blks_for_rows mpcount maxblks colBlks batchSize, colBlks, batchSize).

(** ** The random-forest benchmark *)

(** [RunF::run] and [RunD::run]:
    [ASSERT(!p.rowMajor, ...); fit(...);].  [fit] is the forest-level entry
    point; it is only reached for column-major input. *)
Definition Run_run {A : Type} (rowMajor : bool) (fit : unit -> A) : outcome A :=
  if negb rowMajor
  then Returned (fit tt)
  else AssertFailed "RF only supports col-major inputs".

(** ** Definitions used to state the properties *)

(** Rounding up to a multiple of 512 on unbounded integers. *)
Definition align512 (x : Z) : Z := (x + 511) / 512 * 512.

(** Example sizes: 4-byte [IdxT] and [BinT], a 16-byte [SplitT] and a
    48-byte [NodeT]. *)
Definition sizes_float_int : TypeSizes := mkSizes 4 4 16 48.

Definition zero_input : Input := mkInput 0 0 0 0 0 0 0 0 0.
Definition zero_params : DecisionTreeParams := mkParams 0 0 0 0 0 0 0 0.

(** A builder in zeroed storage with its default member initialiser. *)
Definition builder0 : Builder :=
  fresh_builder
    (mkBuilder zero_params zero_input 0 0 0 0 0 0 0 0 0 0 0 0 0 0 0 0 0 0 0 0).

(** Sum of a list of integers. *)
Fixpoint Zsum (l : list Z) : Z :=
  match l with
  | [] => 0
  | a :: rest => a + Zsum rest
  end.

(** Offsets of consecutive regions of the given (aligned) sizes. *)
Fixpoint prefix_sums (acc : Z) (l : list Z) : list Z :=
  match l with
  | [] => []
  | a :: rest => acc :: prefix_sums (acc + a) rest
  end.



(** [nHistBins] as the specification writes it, on unbounded integers. *)
Definition spec_hist_bins (p : DecisionTreeParams) (n_col_blks nclasses : Z)
  : Z :=
  max_batch_size p * (n_bins p + 1) * n_col_blks * nclasses.

(** The unaligned sizes of the ten regions, read from the builder's members
    as [workspaceSize] and [assignWorkspace] read them. *)
Definition workspace_regions (sz : TypeSizes) (b : Builder) : list Z :=
  region_bytes sz (max_batch_size (params b)) (n_blks_for_cols b)
               (nHistBins b) (block_sync_size b).

(** The pointers [assignWorkspace] produces, as a bump allocation over a
    list of sizes. *)
Fixpoint bump_offsets (d : Z) (sizes : list Z) : list Z :=
  match sizes with
  | [] => []
  | s :: rest => d :: bump_offsets (Raft.wrap (d + calculateAlignedBytes s)) rest
  end.



Definition sizes_positive (sz : TypeSizes) : Prop :=
  0 < sizeof_IdxT sz /\ 0 < sizeof_BinT sz /\
  0 < sizeof_SplitT sz /\ 0 < sizeof_NodeT sz.

Definition params_example : DecisionTreeParams :=
  mkParams 4 (-1) 32 1 2 0 8 0.


(** Sum of a rational term over a list of indices. *)
Definition Qsum (f : Z -> Q) (l : list Z) : Q :=
  fold_right (fun j acc => (f j + acc)%Q) 0%Q l.

(** Arrays with given contents (0 outside). *)
Definition array_Z (l : list Z) : Z -> Z := fun k => nth (Z.to_nat k) l 0.
Definition array_Q (l : list Q) : Z -> Q := fun k => nth (Z.to_nat k) l 0%Q.

(** The Gini gain of bin [i] as the specification writes it:
    [sum_class (lval^2/nLeft + rval^2/nRight)/n_samples
     - sum_class ((lval+rval)/n_samples)^2]. *)
Definition spec_gini_gain (shist : Z -> Z) (nclasses len nbins i : Z) : Q :=
  let lval j := inject_Z (shist (2 * nbins * j + i)) in
  let rval j := inject_Z (shist (2 * nbins * j + nbins + i)) in
  let nL := inject_Z (count_left shist nclasses nbins i) in
  let nR := inject_Z (len - count_left shist nclasses nbins i) in
  let n := inject_Z len in
  (Qsum (fun j => (lval j * lval j / nL + rval j * rval j / nR) / n)
        (classes nclasses)
   - Qsum (fun j => ((lval j + rval j) / n) * ((lval j + rval j) / n))
          (classes nclasses))%Q.

(** The MSE gain of a bin as the specification writes it, on exact numbers:
    [parent = -(label_sum)^2/n_samples], [right_sum = label_sum - left_sum],
    [gain = (parent - (-left_sum^2/nLeft - right_sum^2/nRight))/n_samples]. *)
Definition spec_mse_gain (label_sum left_sum : Q) (nL nR len : Z) : Q :=
  let n := inject_Z len in
  let parent := (- (label_sum * label_sum) / n)%Q in
  let right_sum := (label_sum - left_sum)%Q in
  ((parent - (- (left_sum * left_sum) / inject_Z nL
              - (right_sum * right_sum) / inject_Z nR)) / n)%Q.

(** A base-2 logarithm that is exact on powers of two; [myLog] is only
    evaluated on such arguments in the examples below. *)
Definition log2_dyadic (q : Q) : Q :=
  inject_Z (Z.log2 (Qnum q) - Z.log2 (Zpos (Qden q))).

(** A histogram of one bin and two classes, laid out [class, side, bin]:
    class 0 has 3 samples left and 2 right, class 1 has 0 left and 5 right. *)
Definition hist_3_2_0_5 : Z -> Z := array_Z [3; 2; 0; 5].

(** One bin, two classes, a pure split: class 0 has 2 left, class 1 has
    2 right. *)
Definition hist_pure : Z -> Z := array_Z [2; 0; 0; 2].

Definition bins_half : Z -> Q := array_Q [1 # 2]%Q.

(** The builder after [workspaceSize] has stored [p] and [nclasses]. *)
Definition builder_for (p : DecisionTreeParams) (nclasses : Z) : Builder :=
  fst (fst (workspaceSize sizes_float_int builder0 0 0 p 4096 8192 10 1 10 1
                          12288 nclasses 16384)).

Definition zero_gini : GiniObjectiveFunction := mkGini 0 0 0.

(** Arrays of [DataT] with given contents ([+0] outside). *)
Definition array_fp (l : list spec_float) : Z -> spec_float :=
  fun k => nth (Z.to_nat k) l (S754_zero false).

(** The number a finite [DataT] stands for. *)
Definition fp_value (x : spec_float) : option Q :=
  match x with
  | S754_zero _ => Some 0%Q
  | S754_finite s m e =>
      Some (inject_Z (if s then Zneg m else Zpos m) * Qpower 2 e)%Q
  | _ => None
  end.

(** [x] is finite and stands for the rational [q]. *)
Definition fp_is (x : spec_float) (q : Q) : Prop :=
  match fp_value x with
  | Some v => (v == q)%Q
  | None => False
  end.

(** What the specification divides by [n_samples] in the MSE gain,
    [parent - (-left_sum^2/nLeft - right_sum^2/nRight)] with
    [parent = -(label_sum)^2/n_samples] and
    [right_sum = label_sum - left_sum], every operation in [DataT]. *)
Definition spec_mse_numerator (t : DataType) (label_sum left_sum : spec_float)
           (nL nR len : Z) : spec_float :=
  let n := fp_of_int t len in
  let parent := fp_opp (fp_div t (fp_mul t label_sum label_sum) n) in
  let right_sum := fp_sub t label_sum left_sum in
  fp_sub t parent
         (fp_sub t (fp_opp (fp_div t (fp_mul t left_sum left_sum)
                                   (fp_of_int t nL)))
                   (fp_div t (fp_mul t right_sum right_sum)
                           (fp_of_int t nR))).

(** The MSE gain as the specification writes it, in [DataT] arithmetic. *)
Definition spec_mse_gain_fp (t : DataType) (label_sum left_sum : spec_float)
           (nL nR len : Z) : spec_float :=
  fp_div t (spec_mse_numerator t label_sum left_sum nL nR len)
         (fp_of_int t len).

(** Prefix sums of labels and counts over two bins of a node with four
    samples whose labels sum to 10. *)
Definition label_cdf_ex : Z -> spec_float :=
  array_fp [fp_of_int Float 3; fp_of_int Float 10].
Definition count_cdf_ex : Z -> Z := array_Z [2; 4].
Definition bins_fp : Z -> spec_float := array_fp [fp_of_dyadic Float 1 (-1)].

(** Three samples with labels 1, 1/2, 1/2, one bin boundary after each. *)
Definition label_cdf_1_2 : Z -> spec_float :=
  array_fp [fp_of_int Float 1; fp_of_dyadic Float 3 (-1); fp_of_int Float 2].
Definition count_cdf_1_2_3 : Z -> Z := array_Z [1; 2; 3].

(** Three samples with the same label [9932112 * 2^-28] (about 0.037), a
    [float]; their sums are exact in [float]. *)
Definition label_eq : spec_float := fp_of_dyadic Float 9932112 (-28).
Definition label_cdf_eq : Z -> spec_float :=
  array_fp [label_eq; fp_add Float label_eq label_eq;
            fp_add Float (fp_add Float label_eq label_eq) label_eq].

(** What holds of the frontier at the top of the loop of [train]; [b0] is
    the builder [train] was called on. *)
Definition frontier_ok (b0 b : Builder) : Prop :=
  params b = params b0 /\
  0 <= node_start b /\ node_start b <= node_end b /\
  node_end b <= h_total_nodes b /\
  node_end b - node_start b <= max_batch_size (params b).

(** The host vector at the top of the loop: it is [node_start] entries
    longer than [h_total_nodes], and the entries from index [h_total_nodes] on
    are value-initialised. *)
Definition host_ok (d : Node) (b : Builder) (h : list Node) : Prop :=
  Z.of_nat (length h) = h_total_nodes b + node_start b /\
  skipn (Z.to_nat (h_total_nodes b)) h = repeat d (Z.to_nat (node_start b)).

(** A value-initialised node and two device behaviours over a device state
    that counts leaves: one turns every frontier node into a leaf, one
    splits the root once. *)
Definition node0 : Node := mkNode 0 0 0 0 0 0 0 false 0.

Definition leaf_device (leaves : Z) (total : Z) (batch : list Node)
  : DeviceResult Z :=
  mkDeviceResult (leaves + Z.of_nat (length batch)) batch [].

Definition child (start count id : Z) : Node :=
  mkNode start count 1 0 (-1) 0 (-1) false id.

Definition split_root_device (leaves : Z) (total : Z) (batch : list Node)
  : DeviceResult Z :=
  if total =? 1
  then mkDeviceResult leaves batch [child 0 2 1; child 2 2 2]
  else mkDeviceResult (leaves + Z.of_nat (length batch)) batch [].

Definition reset_leaves (leaves : Z) : Z := 0.

Definition leaves_and_depth (leaves : Z) : Z * Z :=
  (leaves, if 1 <? leaves then 1 else 0).

(** The batch size of an enqueued launch or host-to-device copy. *)
Definition launch_batch (op : DeviceOp) : option Z :=
  match op with
  | LaunchInitSplit k => Some k
  | LaunchComputeSplit _ k => Some k
  | LaunchNodeSplit k => Some k
  | UpdateDevice _ k => Some k
  | _ => None
  end.

(** The frontier ranges [(node_start, node_end)] of the batches of a run
    of the loop of [train]. *)
Fixpoint train_batches {D : Type} (sz : TypeSizes) (d : Node)
         (device : D -> Z -> list Node -> DeviceResult D)
         (fuel : nat) (st : TrainState D) : list (Z * Z) :=
  match fuel with
  | O => []
  | S f =>
      (node_start (ts_builder st), node_end (ts_builder st))
        :: match loop_body sz d device st with
           | Break _ => []
           | Continue st' => train_batches sz d device f st'
           end
  end.

(** Non-empty ranges that follow one another from [lo] to [hi]. *)
Fixpoint tiles (lo : Z) (l : list (Z * Z)) (hi : Z) : Prop :=
  match l with
  | [] => lo = hi
  | (a, b) :: rest => a = lo /\ a < b /\ tiles b rest hi
  end.

(** Position of a region in the layout. *)
Definition region_index (r : Region) : nat :=
  match r with
  | R_n_nodes => 0 | R_hist => 1 | R_done_count => 2 | R_mutex => 3
  | R_block_sync => 4 | R_n_leaves => 5 | R_n_depth => 6 | R_splits => 7
  | R_curr_nodes => 8 | R_next_nodes => 9
  end%nat.

(** Size of a region before alignment, read from the builder's members. *)
Definition region_capacity (sz : TypeSizes) (b : Builder) (r : Region) : Z :=
  nth (region_index r) (workspace_regions sz b) 0.

(** Where a region starts, and where the next one starts; [d_end] is the
    end of the workspace, which bounds the last region. *)
Definition region_start (b : Builder) (r : Region) : Z :=
  nth (region_index r) (region_pointers b) 0.
Definition region_limit (b : Builder) (d_end : Z) (r : Region) : Z :=
  nth (S (region_index r)) (region_pointers b ++ [d_end]) 0.

(** Size of one element of what a region holds. *)
Definition region_elem (sz : TypeSizes) (r : Region) : Z :=
  match r with
  | R_n_nodes | R_n_leaves | R_n_depth => sizeof_IdxT sz
  | R_hist => sizeof_BinT sz
  | R_done_count | R_mutex => sizeof_int
  | R_block_sync => 1
  | R_splits => sizeof_SplitT sz
  | R_curr_nodes | R_next_nodes => sizeof_NodeT sz
  end.

(** The region an enqueued memset or copy touches and the number of bytes
    from its start. *)
Definition op_extent (sz : TypeSizes) (op : DeviceOp) : option (Region * Z) :=
  match op with
  | MemsetAsync r bytes => Some (r, bytes)
  | UpdateDevice r count => Some (r, region_elem sz r * count)
  | UpdateHost r count => Some (r, region_elem sz r * count)
  | _ => None
  end.

(** The builder after [workspaceSize] with the given number of sampled
    columns, out of 25. *)
Definition builder_cols (sampledCols : Z) : Builder :=
  fst (fst (workspaceSize sizes_float_int builder0 0 0 params_example
                          4096 8192 100 25 100 sampledCols 12288 2 16384)).

(** * Properties *)

(** ** Size arithmetic *)

Lemma wrap_small x : 0 <= x < 2 ^ 64 -> Raft.wrap x = x.
Proof. intros H. unfold Raft.wrap, Raft.size_bits. apply Z.mod_small; exact H. Qed.

Lemma wrap_range x : 0 <= Raft.wrap x < 2 ^ 64.
Proof. unfold Raft.wrap, Raft.size_bits. apply Z.mod_pos_bound. reflexivity. Qed.

Lemma wrap_mod_512 x : Raft.wrap x mod 512 = x mod 512.
Proof.
  unfold Raft.wrap, Raft.size_bits.
  change (2 ^ 64) with (512 * 2 ^ 55).
  rewrite Z.rem_mul_r by (try discriminate; reflexivity).
  rewrite Z.mul_comm, Z.mod_add by discriminate.
  apply Z.mod_mod. discriminate.
Qed.


Lemma int_wrap_range x : - 2 ^ 31 <= int_wrap x < 2 ^ 31.
Proof.
  unfold int_wrap, int_bits.
  change (2 ^ (32 - 1)) with (2 ^ 31). change (2 ^ 32) with (2 * 2 ^ 31).
  pose proof (Z.mod_pos_bound (x + 2 ^ 31) (2 * 2 ^ 31) ltac:(lia)). lia.
Qed.

Lemma align512_ge x : x <= align512 x < x + 512.
Proof. unfold align512. Z.div_mod_to_equations. lia. Qed.

Lemma align512_multiple x : align512 x mod 512 = 0.
Proof. unfold align512. apply Z.mod_mul. discriminate. Qed.

Lemma calculateAlignedBytes_small x :
  0 <= x -> align512 x < 2 ^ 64 -> calculateAlignedBytes x = align512 x.
Proof.
  intros Hx Hfit.
  assert (Hm := align512_multiple x).
  assert (Hg := align512_ge x).
  assert (H64 : 2 ^ 64 = 512 * 2 ^ 55) by reflexivity.
  assert (Hle : align512 x <= 2 ^ 64 - 512).
  { pose proof (Z.div_mod (align512 x) 512 ltac:(discriminate)) as E.
    rewrite Hm in E. lia. }
  unfold calculateAlignedBytes, Raft.alignTo, Raft.ceildiv, alignValue.
  replace (x + 512 - 1) with (x + 511) by lia.
  rewrite (wrap_small (x + 511)) by lia.
  apply wrap_small. fold (align512 x). lia.
Qed.

Lemma calculateAlignedBytes_multiple x : calculateAlignedBytes x mod 512 = 0.
Proof.
  unfold calculateAlignedBytes, Raft.alignTo, alignValue, Raft.wrap, Raft.size_bits.
  set (c := Raft.ceildiv x 512).
  change (2 ^ 64) with (512 * 2 ^ 55).
  rewrite Z.rem_mul_r by (try discriminate; reflexivity).
  rewrite Z.mod_mul by discriminate.
  rewrite Z.add_0_l, Z.mul_comm. apply Z.mod_mul. discriminate.
Qed.

(** ** workspaceSize *)

Section WorkspaceFacts.

Variable sz : TypeSizes.

(** The outcome of [workspaceSize] is decided by its two assertions and the
    member [n_blks_for_cols] only enters through the clamp. *)
Lemma workspaceSize_outcome b t s p data labels tr tc sr sc rowids nclasses q :
  snd (workspaceSize sz b t s p data labels tr tc sr sc rowids nclasses q) =
  if q =? nullptr then
    AssertFailed "Currently quantiles need to be computed before this call!"
  else if negb (1 <=? nclasses) then
    AssertFailed "nclasses should be at least 1"
  else
    let ncb := Z.min sc (n_blks_for_cols b) in
    Returned
      (accumulate_aligned
         (region_bytes sz (max_batch_size p) ncb
            (int_wrap (max_batch_size p * (1 + n_bins p) * ncb * nclasses)) 0),
       calculateAlignedBytes (Raft.wrap (sizeof_IdxT sz))).
Proof.
  unfold workspaceSize.
  destruct (q =? nullptr); [reflexivity|].
  destruct (negb (1 <=? nclasses)); reflexivity.
Qed.

Lemma workspaceSize_n_blks b t s p data labels tr tc sr sc rowids nclasses q :
  q <> nullptr ->
  n_blks_for_cols
    (fst (fst (workspaceSize sz b t s p data labels tr tc sr sc rowids
                             nclasses q)))
  = Z.min sc (n_blks_for_cols b).
Proof.
  intros Hq. unfold workspaceSize.
  destruct (q =? nullptr) eqn:E; [apply Z.eqb_eq in E; contradiction|].
  destruct (negb (1 <=? nclasses)); reflexivity.
Qed.

Lemma workspaceSize_enqueues_nothing
      b t s p data labels tr tc sr sc rowids nclasses q :
  snd (fst (workspaceSize sz b t s p data labels tr tc sr sc rowids
                          nclasses q)) = [].
Proof.
  unfold workspaceSize.
  destruct (q =? nullptr); [reflexivity|].
  destruct (negb (1 <=? nclasses)); reflexivity.
Qed.

(** C8: calling [workspaceSize] twice in succession on the same builder with
    identical arguments gives the same [(d_wsize, h_wsize)] (or the same
    assertion failure) both times; the second clamp
    [min(sampledCols, n_blks_for_cols)] over the already clamped member
    leaves it as the first call set it. *)
Theorem C8_workspaceSize_twice
        b t s p data labels tr tc sr sc rowids nclasses q :
  let r1 := workspaceSize sz b t s p data labels tr tc sr sc rowids nclasses q in
  let b1 := fst (fst r1) in
  let r2 := workspaceSize sz b1 t s p data labels tr tc sr sc rowids nclasses q in
  snd r2 = snd r1 /\
  n_blks_for_cols (fst (fst r2)) = n_blks_for_cols b1.
Proof.
  cbv zeta. rewrite !workspaceSize_outcome.
  destruct (q =? nullptr) eqn:Eq.
  - split; [reflexivity|].
    unfold workspaceSize. rewrite !Eq. reflexivity.
  - assert (Hq : q <> nullptr) by (apply Z.eqb_neq; exact Eq).
    rewrite !workspaceSize_n_blks by exact Hq.
    assert (Hmin : Z.min sc (Z.min sc (n_blks_for_cols b))
                   = Z.min sc (n_blks_for_cols b)) by lia.
    rewrite Hmin. split; reflexivity.
Qed.

(** C9 (amended): [workspaceSize] raises an assertion failure exactly when
    [quantiles] is null or [nclasses < 1], whatever [n_bins] and the split
    criterion are, and it enqueues no device work in either case; row-major
    input is refused by the benchmark's [run], which asserts before [fit]
    is reached. *)
Theorem C9_workspaceSize_assertions
        b t s p data labels tr tc sr sc rowids nclasses q :
  let r := workspaceSize sz b t s p data labels tr tc sr sc rowids nclasses q in
  snd (fst r) = [] /\
  ((exists msg, snd r = AssertFailed msg) <-> (q = nullptr \/ nclasses < 1)) /\
  (forall (A : Type) (fit : unit -> A),
      exists msg, Run_run true fit = AssertFailed msg).
Proof.
  cbv zeta. split; [apply workspaceSize_enqueues_nothing|]. split.
  - rewrite workspaceSize_outcome.
    destruct (q =? nullptr) eqn:Eq.
    + apply Z.eqb_eq in Eq. split; [intros _; left; exact Eq|].
      intros _. eexists; reflexivity.
    + apply Z.eqb_neq in Eq.
      destruct (1 <=? nclasses) eqn:En; cbn.
      * apply Z.leb_le in En. split.
        -- intros [msg H]. discriminate H.
        -- intros [H|H]; [contradiction|lia].
      * apply Z.leb_gt in En. split.
        -- intros _. right. exact En.
        -- intros _. eexists; reflexivity.
  - intros A fit. eexists. reflexivity.
Qed.

End WorkspaceFacts.

(** C9 as stated fails: with [n_bins = 0] and a split criterion outside the
    enum, [workspaceSize] returns sizes and raises nothing. *)
Lemma C9_counterexample :
  let p := mkParams 4 (-1) 0 1 2 0 8 99 in
  n_bins p < 1 /\ split_criterion p = 99 /\
  exists d h,
    snd (workspaceSize sizes_float_int builder0 0 0 p 4096 8192 100 4 100 4
                       12288 2 16384) = Returned (d, h).
Proof.
  cbv zeta. split; [reflexivity|]. split; [reflexivity|].
  eexists. eexists. vm_compute. reflexivity.
Qed.

(** ** Layout of the device workspace *)

Arguments align512 : simpl never.
Arguments calculateAlignedBytes : simpl never.
Arguments Raft.wrap : simpl never.

Section LayoutFacts.

Variable sz : TypeSizes.

Lemma Zsum_align512_nonneg l :
  Forall (fun s => 0 <= s) l -> 0 <= Zsum (map align512 l).
Proof.
  induction 1 as [|a l Ha _ IH]; cbn; [lia|].
  pose proof (align512_ge a). lia.
Qed.

Lemma bump_small d s :
  0 <= d -> 0 <= s -> d + align512 s < 2 ^ 64 ->
  Raft.wrap (d + calculateAlignedBytes s) = d + align512 s.
Proof.
  intros Hd Hs Hfit. pose proof (align512_ge s).
  rewrite calculateAlignedBytes_small by lia.
  apply wrap_small. lia.
Qed.

Lemma accumulate_from_small sizes d0 :
  0 <= d0 -> Forall (fun s => 0 <= s) sizes ->
  d0 + Zsum (map align512 sizes) < 2 ^ 64 ->
  fold_left (fun d s => Raft.wrap (d + calculateAlignedBytes s)) sizes d0
  = d0 + Zsum (map align512 sizes).
Proof.
  intros Hd Hall. revert d0 Hd.
  induction Hall as [|a l Ha Hl IH]; intros d0 Hd Hfit; cbn in *; [lia|].
  pose proof (Zsum_align512_nonneg l Hl).
  pose proof (align512_ge a).
  rewrite bump_small by lia.
  rewrite IH by lia. lia.
Qed.

Lemma bump_offsets_small sizes d0 :
  0 <= d0 -> Forall (fun s => 0 <= s) sizes ->
  d0 + Zsum (map align512 sizes) < 2 ^ 64 ->
  bump_offsets d0 sizes = prefix_sums d0 (map align512 sizes).
Proof.
  intros Hd Hall. revert d0 Hd.
  induction Hall as [|a l Ha Hl IH]; intros d0 Hd Hfit; cbn in *;
    [reflexivity|].
  pose proof (Zsum_align512_nonneg l Hl).
  pose proof (align512_ge a).
  rewrite bump_small by lia.
  rewrite IH by lia. reflexivity.
Qed.

Lemma prefix_sums_aligned base acc l :
  (acc - base) mod 512 = 0 ->
  Forall (fun o => (o - base) mod 512 = 0) (prefix_sums acc (map align512 l)).
Proof.
  revert acc. induction l as [|a l IH]; intros acc Hacc; cbn; constructor.
  - exact Hacc.
  - apply IH. pose proof (align512_multiple a).
    replace (acc + align512 a - base) with ((acc - base) + align512 a) by lia.
    rewrite Z.add_mod by discriminate. rewrite Hacc, H. reflexivity.
Qed.







Lemma region_bytes_range mb ncb nh bs :
  Forall (fun s => 0 <= s < 2 ^ 64) (region_bytes sz mb ncb nh bs).
Proof. unfold region_bytes. repeat constructor; apply wrap_range. Qed.

(** [assignWorkspace] is a bump allocation over the sizes [workspaceSize]
    sums up, read from the builder's members. *)
Lemma assignWorkspace_pointers b dw hw :
  region_pointers (assignWorkspace sz b dw hw) =
  bump_offsets dw (workspace_regions sz b).
Proof. reflexivity. Qed.

(** [workspaceSize] reports the sum over the members it has just stored. *)
Lemma workspaceSize_reports
      b t s p data labels tr tc sr sc rowids nclasses q :
  q <> nullptr -> 1 <= nclasses ->
  snd (workspaceSize sz b t s p data labels tr tc sr sc rowids nclasses q)
  = Returned
      (accumulate_aligned
         (workspace_regions sz
            (fst (fst (workspaceSize sz b t s p data labels tr tc sr sc
                                     rowids nclasses q)))),
       calculateAlignedBytes (Raft.wrap (sizeof_IdxT sz))).
Proof.
  intros Hq Hn. unfold workspaceSize.
  destruct (q =? nullptr) eqn:E; [apply Z.eqb_eq in E; contradiction|].
  destruct (1 <=? nclasses) eqn:E'; [|apply Z.leb_gt in E'; lia].
  reflexivity.
Qed.



(** Region [k] of a layout by prefix sums lies inside the buffer and ends
    where region [k + 1] begins. *)
Lemma region_window acc l k n :
  Forall (fun s => 0 <= s) l -> (k < length l)%nat -> 0 <= n <= nth k l 0 ->
  acc <= nth k (prefix_sums acc (map align512 l)) 0 /\
  nth k (prefix_sums acc (map align512 l)) 0 + n
  <= nth (S k) (prefix_sums acc (map align512 l)
                ++ [acc + Zsum (map align512 l)]) 0 /\
  nth (S k) (prefix_sums acc (map align512 l)
             ++ [acc + Zsum (map align512 l)]) 0
  <= acc + Zsum (map align512 l).
Proof.
  intros Hall. revert acc k.
  induction Hall as [|a l Ha Hl IH]; intros acc k Hk Hn; [cbn in Hk; lia|].
  pose proof (align512_ge a) as Hal.
  pose proof (Zsum_align512_nonneg l Hl) as Hsum.
  destruct k as [|k].
  - cbn [nth] in Hn. cbn [map prefix_sums Zsum app nth].
    destruct l as [|a' l']; cbn [map prefix_sums Zsum app nth] in *; lia.
  - cbn [nth] in Hn. cbn [map prefix_sums Zsum app nth].
    cbn [length] in Hk.
    replace (acc + (align512 a + Zsum (map align512 l)))
      with ((acc + align512 a) + Zsum (map align512 l)) by lia.
    destruct (IH (acc + align512 a) k ltac:(lia) Hn) as (H1 & H2 & H3).
    lia.
Qed.

(** The members a successful [workspaceSize] leaves behind. *)
Lemma workspaceSize_members
      b t s p data labels tr tc sr sc rowids nclasses q :
  q <> nullptr -> 1 <= nclasses ->
  let b' := fst (fst (workspaceSize sz b t s p data labels tr tc sr sc rowids
                                    nclasses q)) in
  params b' = p /\
  n_blks_for_cols b' = Z.min sc (n_blks_for_cols b) /\
  nHistBins b' =
    int_wrap (max_batch_size p * (1 + n_bins p) * Z.min sc (n_blks_for_cols b)
              * nclasses) /\
  block_sync_size b' = 0 /\
  maxNodes b' =
    (if max_depth p <? 13 then dense_tree_nodes (max_depth p) else 8191).
Proof.
  intros Hq Hn. cbv zeta. unfold workspaceSize.
  destruct (q =? nullptr) eqn:E; [apply Z.eqb_eq in E; contradiction|].
  destruct (1 <=? nclasses) eqn:E'; [|apply Z.leb_gt in E'; lia].
  cbn. repeat split; reflexivity.
Qed.


End LayoutFacts.

Lemma dense_tree_nodes_pow d : 0 <= d -> dense_tree_nodes d = 2 ^ (d + 1) - 1.
Proof.
  intros Hd. unfold dense_tree_nodes. cbv zeta.
  destruct (0 <=? d + 1) eqn:E; [reflexivity|].
  apply Z.leb_gt in E. lia.
Qed.








(** ** Objective functions *)

Section MetricsFacts.

Variable DataT : DataType.
Variable shist : Z -> Z.
Variable sbins : Z -> Q.

(** The test on [min_impurity_decrease] leaves the sentinel in place. *)
Lemma veto_of_sentinel (m : Q) :
  (if Qle_bool (- kMax DataT) m then (- kMax DataT)%Q else (- kMax DataT)%Q)
  = (- kMax DataT)%Q.
Proof. destruct (Qle_bool (- kMax DataT) m); reflexivity. Qed.

(** Both classification objectives veto a bin whose left or right count is
    below the member [min_samples_leaf] of the object. *)
Lemma Gini_candidate_small_side o col len nbins i :
  let nL := count_left shist (g_nclasses o) nbins i in
  nL < g_min_samples_leaf o \/ len - nL < g_min_samples_leaf o ->
  gain (Gini_candidate DataT shist sbins o col len nbins i) = (- kMax DataT)%Q.
Proof.
  cbv zeta. intros H. unfold Gini_candidate, Gini_split_gain. cbn [gain].
  assert (E : (count_left shist (g_nclasses o) nbins i <? g_min_samples_leaf o)
              || (len - count_left shist (g_nclasses o) nbins i
                  <? g_min_samples_leaf o) = true).
  { apply orb_true_iff. destruct H; [left|right]; apply Z.ltb_lt; assumption. }
  rewrite E. apply veto_of_sentinel.
Qed.

Lemma Entropy_candidate_small_side myLog o col len nbins i :
  let nL := count_left shist (e_nclasses o) nbins i in
  nL < e_min_samples_leaf o \/ len - nL < e_min_samples_leaf o ->
  gain (Entropy_candidate DataT myLog shist sbins o col len nbins i)
  = (- kMax DataT)%Q.
Proof.
  cbv zeta. intros H. unfold Entropy_candidate, Entropy_split_gain. cbn [gain].
  assert (E : (count_left shist (e_nclasses o) nbins i <? e_min_samples_leaf o)
              || (len - count_left shist (e_nclasses o) nbins i
                  <? e_min_samples_leaf o) = true).
  { apply orb_true_iff. destruct H; [left|right]; apply Z.ltb_lt; assumption. }
  rewrite E. apply veto_of_sentinel.
Qed.

(** One pass of the Gini class loop adds the class's two quotient terms and
    subtracts its squared share. *)
Lemma gini_class_step_eq invLeft invRight len nbins i g j :
  let lval := inject_Z (shist (2 * nbins * j + i)) in
  let rval := inject_Z (shist (2 * nbins * j + nbins + i)) in
  let n := inject_Z len in
  (gini_class_step shist (1 / n) invLeft invRight nbins i g j
   == g + (lval * lval * invLeft + rval * rval * invRight) / n
        - ((lval + rval) / n) * ((lval + rval) / n))%Q.
Proof.
  cbv zeta. unfold gini_class_step. cbv zeta.
  rewrite Z.add_0_l. rewrite inject_Z_plus.
  unfold Qdiv. ring.
Qed.

Lemma gini_class_loop nL nR len nbins i l g :
  let lval j := inject_Z (shist (2 * nbins * j + i)) in
  let rval j := inject_Z (shist (2 * nbins * j + nbins + i)) in
  let n := inject_Z len in
  (fold_left (gini_class_step shist (1 / n) (1 / nL) (1 / nR) nbins i) l g
   == g + Qsum (fun j => (lval j * lval j / nL + rval j * rval j / nR) / n) l
        - Qsum (fun j => ((lval j + rval j) / n) * ((lval j + rval j) / n)) l)%Q.
Proof.
  cbv zeta. revert g. induction l as [|j l IH]; intros g; cbn [fold_left Qsum fold_right].
  - ring.
  - rewrite IH. rewrite gini_class_step_eq. cbv zeta.
    unfold Qsum. unfold Qdiv. ring.
Qed.

(** Where both sides hold at least [min_samples_leaf] samples, the code's
    Gini gain is the specification's expression. *)
Lemma Gini_split_gain_formula o len nbins i :
  let nL := count_left shist (g_nclasses o) nbins i in
  g_min_samples_leaf o <= nL -> g_min_samples_leaf o <= len - nL ->
  (Gini_split_gain DataT shist o len nbins i
   == spec_gini_gain shist (g_nclasses o) len nbins i)%Q.
Proof.
  cbv zeta. intros HL HR. unfold Gini_split_gain. cbv zeta.
  assert (E : (count_left shist (g_nclasses o) nbins i <? g_min_samples_leaf o)
              || (len - count_left shist (g_nclasses o) nbins i
                  <? g_min_samples_leaf o) = false).
  { apply orb_false_iff. split; apply Z.ltb_ge; assumption. }
  rewrite E. rewrite gini_class_loop. cbv zeta.
  unfold spec_gini_gain. cbv zeta. ring.
Qed.

End MetricsFacts.

(** *** Signs in IEEE-754 arithmetic *)

Section FloatSigns.

Variables prec emax : Z.

Lemma binary_round_aux_opp s m e l :
  SFopp (binary_round_aux prec emax s m e l)
  = binary_round_aux prec emax (negb s) m e l.
Proof.
  unfold binary_round_aux.
  destruct (shr_fexp prec emax m e l) as [mrs1 e1].
  destruct (shr_fexp prec emax _ e1 loc_Exact) as [mrs2 e2].
  destruct (shr_m mrs2); [reflexivity| |reflexivity].
  destruct (e2 <=? emax - prec); reflexivity.
Qed.

Lemma binary_round_opp s m e :
  SFopp (binary_round prec emax s m e) = binary_round prec emax (negb s) m e.
Proof.
  unfold binary_round. destruct (shl_align m e _) as [mz ez].
  apply binary_round_aux_opp.
Qed.

Lemma SFopp_involutive x : SFopp (SFopp x) = x.
Proof. destruct x as [s|s| |s m e]; cbn; rewrite ?negb_involutive; reflexivity. Qed.

Lemma SFmul_opp_l x y :
  SFmul prec emax (SFopp x) y = SFopp (SFmul prec emax x y).
Proof.
  destruct x as [sx|sx| |sx mx ex], y as [sy|sy| |sy my ey];
    cbn [SFmul SFopp]; try reflexivity;
    try (destruct sx, sy; reflexivity).
  rewrite binary_round_aux_opp. destruct sx, sy; reflexivity.
Qed.

Lemma SFmul_opp_r x y :
  SFmul prec emax x (SFopp y) = SFopp (SFmul prec emax x y).
Proof.
  destruct x as [sx|sx| |sx mx ex], y as [sy|sy| |sy my ey];
    cbn [SFmul SFopp]; try reflexivity;
    try (destruct sx, sy; reflexivity).
  rewrite binary_round_aux_opp. destruct sx, sy; reflexivity.
Qed.

Lemma SFdiv_opp_l x y :
  SFdiv prec emax (SFopp x) y = SFopp (SFdiv prec emax x y).
Proof.
  destruct x as [sx|sx| |sx mx ex], y as [sy|sy| |sy my ey];
    cbn [SFdiv SFopp]; try reflexivity;
    try (destruct sx, sy; reflexivity).
  destruct (SFdiv_core_binary prec emax (Z.pos mx) ex (Z.pos my) ey)
    as [[mz ez] lz].
  rewrite binary_round_aux_opp. destruct sx, sy; reflexivity.
Qed.

(** [x + (-y)] is [x - y], signs of zeros included. *)
Lemma SFadd_opp_r x y :
  SFadd prec emax x (SFopp y) = SFsub prec emax x y.
Proof.
  destruct x as [sx|sx| |sx mx ex], y as [sy|sy| |sy my ey];
    cbn [SFadd SFsub SFopp]; try reflexivity;
    destruct sx, sy; reflexivity.
Qed.

(** [y - x] is [-(x - y)], except that both are zeros, of whatever sign,
    when the difference is zero. *)
Lemma SFsub_swap x y :
  SFsub prec emax y x = SFopp (SFsub prec emax x y) \/
  exists s s', SFsub prec emax x y = S754_zero s /\
               SFsub prec emax y x = S754_zero s'.
Proof.
  destruct x as [sx|sx| |sx mx ex], y as [sy|sy| |sy my ey];
    cbn [SFsub SFopp];
    try (left; reflexivity);
    try (left; destruct sx, sy; reflexivity);
    try (left; rewrite negb_involutive; reflexivity).
  - right. destruct sx, sy; eexists; eexists; split; reflexivity.
  - cbv zeta. rewrite (Z.min_comm ey ex).
    set (a := cond_Zopp sx (Z.pos (fst (shl_align mx ex (Z.min ex ey))))).
    set (b := cond_Zopp sy (Z.pos (fst (shl_align my ey (Z.min ex ey))))).
    replace (b - a) with (- (a - b)) by lia.
    destruct (a - b) as [|p|p]; cbn [Z.opp binary_normalize].
    + right. eexists. eexists. split; reflexivity.
    + left. rewrite binary_round_opp. reflexivity.
    + left. rewrite binary_round_opp. reflexivity.
Qed.

Lemma SFmul_square_swap x y :
  SFmul prec emax (SFsub prec emax y x) (SFsub prec emax y x)
  = SFmul prec emax (SFsub prec emax x y) (SFsub prec emax x y).
Proof.
  destruct (SFsub_swap x y) as [E|(s & s' & E1 & E2)].
  - rewrite E, SFmul_opp_l, SFmul_opp_r. apply SFopp_involutive.
  - rewrite E1, E2. cbn. destruct s, s'; reflexivity.
Qed.

End FloatSigns.

(** The two renderings of [NumericLimits<DataT>::kMax] agree. *)
Lemma fp_kMax_value t : fp_is (fp_kMax t) (kMax t).
Proof. destruct t; vm_compute; reflexivity. Qed.

(** The gain [regressionMetricGain] computes for a bin that passes the test
    on [min_samples_leaf]: the specification's numerator, times the rounded
    reciprocal of [len]. *)
Lemma regression_split_gain_spec
      DataT slabel_cdf scount_cdf label_sum len msl i :
  msl <= scount_cdf i -> msl <= len - scount_cdf i ->
  regression_split_gain DataT slabel_cdf scount_cdf label_sum len msl i
  = fp_mul DataT
           (spec_mse_numerator DataT label_sum (slabel_cdf i) (scount_cdf i)
                               (len - scount_cdf i) len)
           (fp_div DataT (fp_of_int DataT 1) (fp_of_int DataT len)).
Proof.
  intros HL HR. unfold regression_split_gain. cbv zeta.
  assert (E : (scount_cdf i <? msl) || (len - scount_cdf i <? msl) = false).
  { apply orb_false_iff. split; apply Z.ltb_ge; assumption. }
  rewrite E. unfold spec_mse_numerator. cbv zeta.
  unfold fp_mul, fp_div, fp_sub, fp_add, fp_opp.
  rewrite SFmul_opp_l, !SFdiv_opp_l.
  rewrite (SFmul_square_swap _ _ label_sum (slabel_cdf i)).
  rewrite SFadd_opp_r. reflexivity.
Qed.

Lemma veto_of_sentinel_fp DataT (m : spec_float) :
  (if fp_leb (fp_opp (fp_kMax DataT)) m
   then fp_opp (fp_kMax DataT) else fp_opp (fp_kMax DataT))
  = fp_opp (fp_kMax DataT).
Proof. destruct (fp_leb _ m); reflexivity. Qed.

(** C5 (amended): in [regressionMetricGain], a bin whose left and right
    counts are both at least [min_samples_leaf] gets, in [DataT] arithmetic
    with every operation rounded, the gain
    [(parent - (-left_sum^2/nLeft - right_sum^2/nRight)) * (1/n_samples)]
    with [parent = -(label_sum)^2/n_samples], [left_sum = label_cdf[i]] and
    [right_sum = label_sum - left_sum]; a bin that fails the
    [min_samples_leaf] test, or whose computed gain compares at most
    [min_impurity_decrease], gets the sentinel [-kMax], and every other bin
    keeps its computed gain. *)
Theorem C5_regression_gain
        DataT sbins slabel_cdf scount_cdf label_sum col len nbins msl mid i :
  let nL := scount_cdf i in
  let nR := len - nL in
  let g := regression_split_gain DataT slabel_cdf scount_cdf label_sum len msl i in
  let c := regression_candidate DataT sbins slabel_cdf scount_cdf label_sum
                                col len nbins msl mid i in
  (msl <= nL -> msl <= nR ->
   g = fp_mul DataT (spec_mse_numerator DataT label_sum (slabel_cdf i) nL nR len)
              (fp_div DataT (fp_of_int DataT 1) (fp_of_int DataT len)) /\
   gain c = if fp_leb g mid then fp_opp (fp_kMax DataT) else g) /\
  (nL < msl \/ nR < msl -> gain c = fp_opp (fp_kMax DataT)) /\
  (fp_leb g mid = true -> gain c = fp_opp (fp_kMax DataT)) /\
  (fp_leb g mid = false -> gain c = g) /\
  nLeft c = nL.
Proof.
  cbv zeta. split; [|split; [|split; [|split]]].
  - intros HL HR. split; [|reflexivity].
    apply regression_split_gain_spec; assumption.
  - intros H. unfold regression_candidate, regression_split_gain. cbn [gain].
    assert (E : (scount_cdf i <? msl) || (len - scount_cdf i <? msl) = true).
    { apply orb_true_iff. destruct H; [left|right]; apply Z.ltb_lt; assumption. }
    rewrite E. apply veto_of_sentinel_fp.
  - intros H. unfold regression_candidate. cbn [gain]. rewrite H. reflexivity.
  - intros H. unfold regression_candidate. cbn [gain]. rewrite H. reflexivity.
  - reflexivity.
Qed.

(** A node of four samples whose labels sum to 10, split two and two with
    left sum 3: the gain is [(-25 + 9/2 + 49/2) / 4 = 1], exact in
    [float]. *)
Lemma C5_regression_gain_witness :
  gain (regression_candidate Float bins_fp label_cdf_ex count_cdf_ex
                             (fp_of_int Float 10) 0 4 2 1 (S754_zero false) 0)
  = fp_of_int Float 1.
Proof.
  destruct (C5_regression_gain Float bins_fp label_cdf_ex count_cdf_ex
              (fp_of_int Float 10) 0 4 2 1 (S754_zero false) 0)
    as ((Hg & Hc) & _).
  - vm_compute. discriminate.
  - vm_compute. discriminate.
  - rewrite Hc, Hg. vm_compute. reflexivity.
Defined.

(** C5 as stated fails.  For three samples with labels 1, 1/2, 1/2 and the
    first bin, the formula is worth [1/18]; the code computes in [float]
    [14913078 * 2^-28], which is neither [1/18] nor what the formula gives
    when its last step, the division by [n_samples], is rounded once
    ([14913077 * 2^-28]).  For three samples with the same label the formula
    is worth 0, which is at most [min_impurity_decrease = 0], yet the code
    computes a positive gain and keeps it. *)
Lemma C5_counterexample :
  (let c := regression_candidate Float bins_fp label_cdf_1_2 count_cdf_1_2_3
                                 (fp_of_int Float 2) 0 3 3 1
                                 (S754_zero false) 0 in
   (spec_mse_gain 2 1 1 2 3 == 1 # 18)%Q /\
   gain c = S754_finite false 14913078 (-28) /\
   ~ fp_is (gain c) (1 # 18) /\
   spec_mse_gain_fp Float (fp_of_int Float 2) (fp_of_int Float 1) 1 2 3
   = S754_finite false 14913077 (-28) /\
   gain c <> spec_mse_gain_fp Float (fp_of_int Float 2) (fp_of_int Float 1)
                              1 2 3) /\
  (let c := regression_candidate Float bins_fp label_cdf_eq count_cdf_1_2_3
                                 (label_cdf_eq 2) 0 3 3 1
                                 (S754_zero false) 0 in
   fp_is label_eq (9932112 # 268435456) /\
   fp_is (label_cdf_eq 1) (2 * (9932112 # 268435456)) /\
   fp_is (label_cdf_eq 2) (3 * (9932112 # 268435456)) /\
   (spec_mse_gain (3 * (9932112 # 268435456)) (9932112 # 268435456) 1 2 3
    == 0)%Q /\
   gain c = S754_finite false 11184811 (-56) /\
   gain c <> fp_opp (fp_kMax Float)).
Proof.
  split.
  - cbv zeta. split; [vm_compute; reflexivity|].
    split; [vm_compute; reflexivity|].
    split; [vm_compute; intros H; discriminate H|].
    split; [vm_compute; reflexivity|].
    vm_compute. intros H. discriminate H.
  - cbv zeta. split; [vm_compute; reflexivity|].
    split; [vm_compute; reflexivity|].
    split; [vm_compute; reflexivity|].
    split; [vm_compute; reflexivity|].
    split; [vm_compute; reflexivity|].
    vm_compute. intros H. discriminate H.
Qed.

(** C1: the objective that [computeSplit] constructs compares [nLeft] and
    [nRight] with [params.min_samples_split] (Gini) or with whatever its
    storage held (Entropy), not with [params.min_samples_leaf]: with
    [min_samples_leaf = 5] and [min_samples_split = 2], a bin with 3 samples
    on its left keeps the gain 3/14 instead of the sentinel. *)
Theorem C1_leaf_threshold_is_min_samples_split :
  (forall storage b,
      leaf_threshold
        (computeSplit_objective (O := GiniObjectiveFunction) storage b)
      = min_samples_split (params b)) /\
  (forall storage b,
      leaf_threshold
        (computeSplit_objective (O := EntropyObjectiveFunction) storage b)
      = e_min_samples_leaf storage) /\
  let p := mkParams 4 (-1) 32 5 2 0 8 0 in
  let o := computeSplit_objective zero_gini (builder_for p 2) in
  let c := Gini_candidate Double hist_3_2_0_5 bins_half o 0 10 1 0 in
  nLeft c = 3 /\ nLeft c < min_samples_leaf p /\
  (gain c == 3 # 14)%Q /\ ~ (gain c == - kMax Double)%Q.
Proof.
  split; [reflexivity|]. split; [reflexivity|].
  cbv zeta. split; [vm_compute; reflexivity|].
  split; [vm_compute; reflexivity|].
  split; [vm_compute; reflexivity|].
  vm_compute. discriminate.
Qed.

(** C4: [GiniObjectiveFunction]'s constructor takes [min_impurity_decrease]
    as an [IdxT], so the object built by [computeSplit] holds the caller's
    value truncated toward zero: with [min_impurity_decrease = 1/2] the member
    is 0 and a bin of gain 3/14, which is at most 1/2, keeps its gain
    instead of the sentinel. *)
Theorem C4_impurity_threshold_truncated :
  (forall storage b,
      impurity_threshold
        (computeSplit_objective (O := GiniObjectiveFunction) storage b)
      = inject_Z (Qtrunc (min_impurity_decrease (params b)))) /\
  let p := mkParams 4 (-1) 32 1 2 (1 # 2) 8 0 in
  let o := computeSplit_objective zero_gini (builder_for p 2) in
  let c := Gini_candidate Double hist_3_2_0_5 bins_half o 0 10 1 0 in
  g_min_impurity_decrease o = 0%Q /\
  (Gini_split_gain Double hist_3_2_0_5 o 10 1 0 == 3 # 14)%Q /\
  (3 # 14 <= min_impurity_decrease p)%Q /\
  (gain c == 3 # 14)%Q /\ ~ (gain c == - kMax Double)%Q.
Proof.
  split; [reflexivity|].
  cbv zeta. split; [vm_compute; reflexivity|].
  split; [vm_compute; reflexivity|].
  split; [vm_compute; discriminate|].
  split; [vm_compute; reflexivity|].
  vm_compute. discriminate.
Qed.

(** C2: [EntropyObjectiveFunction]'s constructor initialises
    [min_impurity_decrease] and [min_samples_leaf] from themselves, so the
    object holds what its storage held and not the arguments: constructed
    with [min_impurity_decrease = 0] in storage that held 8, it vetoes a pure
    split of gain 1, which is above the caller's 0. *)
Theorem C2_entropy_constructor_ignores_arguments :
  (forall this n mid msl,
      e_min_impurity_decrease (EntropyObjectiveFunction_ctor this n mid msl)
      = e_min_impurity_decrease this /\
      e_min_samples_leaf (EntropyObjectiveFunction_ctor this n mid msl)
      = e_min_samples_leaf this) /\
  let this := mkEntropy 0 8 0 in
  let o := EntropyObjectiveFunction_ctor this 2 0 1 in
  let c := Entropy_candidate Double log2_dyadic hist_pure bins_half o 0 4 1 0 in
  (Entropy_split_gain Double log2_dyadic hist_pure o 4 1 0 == 1)%Q /\
  ~ (1 <= inject_Z 0)%Q /\
  gain c = (- kMax Double)%Q.
Proof.
  split; [intros; split; reflexivity|].
  cbv zeta. split; [vm_compute; reflexivity|].
  split; [vm_compute; intros H; apply H; reflexivity|].
  vm_compute. reflexivity.
Qed.

(** ** The host vector and the frontier *)

Section VectorFacts.

Variable d : Node.

Lemma skipn_repeat (n m : nat) : skipn n (repeat d m) = repeat d (m - n).
Proof.
  revert m. induction n as [|n IH]; intros m.
  - rewrite Nat.sub_0_r. reflexivity.
  - destruct m as [|m]; [reflexivity|]. cbn. apply IH.
Qed.

Lemma resize_grow (v : list Node) (k : nat) :
  resize d v (length v + k) = v ++ repeat d k.
Proof.
  unfold resize. rewrite firstn_all2 by lia.
  replace (length v + k - length v)%nat with k by lia. reflexivity.
Qed.

Lemma write_at_length off src v :
  (off + length src <= length v)%nat -> length (write_at off src v) = length v.
Proof.
  intros H. unfold write_at.
  rewrite !length_app, length_firstn, length_skipn. lia.
Qed.

(** Reading back what [write_at] wrote. *)
Lemma write_at_read off src v :
  (off <= length v)%nat ->
  firstn (length src) (skipn off (write_at off src v)) = src.
Proof.
  intros H. unfold write_at.
  rewrite skipn_app. rewrite length_firstn.
  replace (Init.Nat.min off (length v)) with off by lia.
  rewrite skipn_all2 by (rewrite length_firstn; lia).
  rewrite Nat.sub_diag. cbn [app skipn].
  rewrite firstn_app, Nat.sub_diag, firstn_all. cbn [firstn].
  apply app_nil_r.
Qed.

Lemma write_at_after off src v k :
  (off + length src <= k)%nat -> (off <= length v)%nat ->
  skipn k (write_at off src v) = skipn k v.
Proof.
  intros H Hv. unfold write_at.
  rewrite !skipn_app, !length_firstn.
  replace (Init.Nat.min off (length v)) with off by lia.
  rewrite (skipn_all2 (firstn off v)) by (rewrite length_firstn; lia).
  rewrite (skipn_all2 src) by lia.
  cbn [app]. rewrite skipn_skipn. f_equal. lia.
Qed.


Lemma firstn_app_left (k : nat) (l r : list Node) :
  (k <= length l)%nat -> firstn k (l ++ r) = firstn k l.
Proof.
  intros H. rewrite firstn_app.
  replace (k - length l)%nat with 0%nat by lia.
  cbn [firstn]. apply app_nil_r.
Qed.

Lemma write_at_prefix k off src v :
  (k <= off)%nat -> (off <= length v)%nat ->
  firstn k (write_at off src v) = firstn k v.
Proof.
  intros Hk Hv. unfold write_at.
  rewrite firstn_app_left by (rewrite length_firstn; lia).
  rewrite firstn_firstn. f_equal. lia.
Qed.

Lemma write_at_segment_before a m off src v :
  (a + m <= off)%nat -> (off <= length v)%nat ->
  firstn m (skipn a (write_at off src v)) = firstn m (skipn a v).
Proof.
  intros Ha Hv. rewrite !firstn_skipn_comm.
  rewrite write_at_prefix by lia. reflexivity.
Qed.

Lemma grown_tail (h : list Node) (T ns k n : nat) :
  length h = (T + ns)%nat -> skipn T h = repeat d ns ->
  skipn (T + n) (h ++ repeat d (k + n)) = repeat d (ns + k).
Proof.
  intros Hlen Htail.
  rewrite skipn_app, Hlen.
  replace (T + n)%nat with (n + T)%nat at 1 by lia.
  rewrite <- skipn_skipn, Htail, !skipn_repeat, <- repeat_app.
  f_equal. lia.
Qed.

End VectorFacts.

Section DriverFacts.

Variable sz : TypeSizes.
Variable d : Node.
Variable reg : bool.
Variable D : Type.
Variable reset : D -> D.
Variable device : D -> Z -> list Node -> DeviceResult D.
Variable counters : D -> Z * Z.

Hypothesis device_keeps_batch :
  forall dev t batch, length (dr_curr_nodes (device dev t batch)) = length batch.

(** What one [doSplit] does to the host vector. *)
Lemma doSplit_host b0 (st : TrainState D) :
  let b := ts_builder st in
  let h := ts_nodes st in
  frontier_ok b0 b -> host_ok d b h ->
  let r := device (ts_device st) (h_total_nodes b) (batch_of b h) in
  let st' := fst (fst (doSplit sz d device st)) in
  let h' := ts_nodes st' in
  let new := snd (fst (doSplit sz d device st)) in
  ts_builder st' = b /\
  new = Z.of_nat (length (dr_next_nodes r)) /\
  Z.of_nat (length h') =
    Z.of_nat (length h) + (node_end b - node_start b) + new /\
  skipn (Z.to_nat (h_total_nodes b + new)) h' =
    repeat d (Z.to_nat (node_end b)) /\
  firstn (Z.to_nat (node_start b)) h' = firstn (Z.to_nat (node_start b)) h /\
  firstn (Z.to_nat (node_end b - node_start b))
         (skipn (Z.to_nat (node_start b)) h') = dr_curr_nodes r /\
  firstn (Z.to_nat (h_total_nodes b - node_end b))
         (skipn (Z.to_nat (node_end b)) h')
  = firstn (Z.to_nat (h_total_nodes b - node_end b))
           (skipn (Z.to_nat (node_end b)) h) /\
  firstn (Z.to_nat new) (skipn (Z.to_nat (h_total_nodes b)) h')
  = dr_next_nodes r.
Proof.
  destruct st as [b h dev]. cbn [ts_builder ts_nodes ts_device]. cbv zeta.
  intros (Hp & Hs0 & Hse & Het & Hmb) (Hlen & Htail).
  unfold doSplit. cbn [ts_builder ts_nodes ts_device fst snd].
  pose proof (device_keeps_batch dev (h_total_nodes b) (batch_of b h)) as Hcurr.
  destruct (device dev (h_total_nodes b) (batch_of b h)) as [dev' curr next].
  cbn [dr_curr_nodes dr_next_nodes dr_state] in *.
  set (ns := Z.to_nat (node_start b)) in *.
  set (bs := Z.to_nat (node_end b - node_start b)) in *.
  set (T := Z.to_nat (h_total_nodes b)) in *.
  set (n := length next) in *.
  assert (Hlen' : length h = (T + ns)%nat) by lia.
  assert (Hbatch : length (batch_of b h) = bs).
  { unfold batch_of. fold ns bs. rewrite length_firstn, length_skipn. lia. }
  rewrite Hbatch in Hcurr.
  replace (length h + bs + n)%nat with (length h + (bs + n))%nat by lia.
  rewrite resize_grow.
  set (h1 := h ++ repeat d (bs + n)).
  assert (Hl1 : length h1 = (T + ns + (bs + n))%nat).
  { unfold h1. rewrite length_app, repeat_length. lia. }
  set (h2 := write_at ns curr h1).
  assert (Hl2 : length h2 = length h1).
  { apply write_at_length. lia. }
  assert (Hl3 : length (write_at T next h2) = length h2).
  { apply write_at_length. fold n. lia. }
  split; [reflexivity|]. split; [reflexivity|]. split; [lia|].
  split; [|split; [|split; [|split]]].
  - replace (Z.to_nat (h_total_nodes b + Z.of_nat n)) with (T + n)%nat by lia.
    rewrite write_at_after by (fold n; lia).
    unfold h2. rewrite write_at_after by lia.
    unfold h1. rewrite (grown_tail d h T ns bs n Hlen' Htail).
    f_equal. lia.
  - rewrite write_at_prefix by lia.
    unfold h2. rewrite write_at_prefix by lia.
    unfold h1. apply firstn_app_left. lia.
  - rewrite write_at_segment_before by lia.
    unfold h2. rewrite <- Hcurr. apply write_at_read. lia.
  - replace (Z.to_nat (node_end b)) with (ns + bs)%nat by lia.
    set (m := Z.to_nat (h_total_nodes b - node_end b)).
    rewrite write_at_segment_before by lia.
    unfold h2. rewrite write_at_after by lia.
    unfold h1. rewrite !firstn_skipn_comm.
    rewrite firstn_app_left by lia. reflexivity.
  - rewrite Nat2Z.id. apply write_at_read. lia.
Qed.

Lemma doSplit_new_nonneg (st : TrainState D) :
  0 <= snd (fst (doSplit sz d device st)).
Proof. unfold doSplit. cbn [fst snd]. lia. Qed.

Lemma doSplit_builder (st : TrainState D) :
  ts_builder (fst (fst (doSplit sz d device st))) = ts_builder st.
Proof. reflexivity. Qed.

Lemma loop_body_cases (st : TrainState D) :
  let st1 := fst (fst (doSplit sz d device st)) in
  let new := snd (fst (doSplit sz d device st)) in
  let b := ts_builder st in
  let b1 := set_frontier b (h_total_nodes b + new) (node_start b) (node_end b) in
  loop_body sz d device st =
  if (new =? 0) && (node_end b =? h_total_nodes b + new)
  then Break (mkTrainState b1 (ts_nodes st1) (ts_device st1))
  else Continue (mkTrainState (updateNodeRange b1) (ts_nodes st1)
                              (ts_device st1)).
Proof. reflexivity. Qed.

Lemma init_ok b h dev :
  1 <= max_batch_size (params b) ->
  let st := fst (init sz d reg reset b h dev) in
  frontier_ok b (ts_builder st) /\ host_ok d (ts_builder st) (ts_nodes st).
Proof.
  intros Hmb. cbv zeta. unfold init. cbn [fst ts_builder ts_nodes].
  assert (Htl : tl (resize d h 1) = []).
  { unfold resize. destruct h as [|x l]; [reflexivity|].
    cbn. destruct l; reflexivity. }
  rewrite Htl. split.
  - unfold frontier_ok. cbn. repeat split; lia.
  - unfold host_ok. cbn. split; reflexivity.
Qed.

Lemma continue_frontier b0 (st st' : TrainState D) :
  1 <= max_batch_size (params b0) ->
  frontier_ok b0 (ts_builder st) ->
  loop_body sz d device st = Continue st' ->
  frontier_ok b0 (ts_builder st').
Proof.
  intros Hmb (Hp & Hs0 & Hse & Het & Hbs) Hbody.
  rewrite loop_body_cases in Hbody. cbv zeta in Hbody.
  pose proof (doSplit_new_nonneg st) as Hnew.
  set (res := doSplit sz d device st) in *. clearbody res.
  destruct res as [[st1 new] ops]. cbn [fst snd] in *.
  destruct ((_ =? 0) && _); [discriminate|].
  injection Hbody as <-. cbn [ts_builder].
  unfold frontier_ok, updateNodeRange. cbn.
  rewrite Hp. repeat split; lia.
Qed.

Lemma continue_host b0 (st st' : TrainState D) :
  1 <= max_batch_size (params b0) ->
  frontier_ok b0 (ts_builder st) -> host_ok d (ts_builder st) (ts_nodes st) ->
  loop_body sz d device st = Continue st' ->
  host_ok d (ts_builder st') (ts_nodes st').
Proof.
  intros Hmb Hf Hh Hbody.
  rewrite loop_body_cases in Hbody. cbv zeta in Hbody.
  destruct (doSplit_host b0 st Hf Hh) as (_ & _ & Hlen & Htail & _).
  destruct Hf as (Hp & Hs0 & Hse & Het & Hbs). destruct Hh as (Hl & _).
  set (res := doSplit sz d device st) in *. clearbody res.
  destruct res as [[st1 new] ops]. cbn [fst snd] in *.
  destruct ((_ =? 0) && _); [discriminate|].
  injection Hbody as <-. cbn [ts_builder ts_nodes].
  unfold host_ok, updateNodeRange. cbn.
  split; [lia|exact Htail].
Qed.

Lemma break_host b0 (st st' : TrainState D) :
  frontier_ok b0 (ts_builder st) -> host_ok d (ts_builder st) (ts_nodes st) ->
  loop_body sz d device st = Break st' ->
  Z.of_nat (length (ts_nodes st')) = 2 * h_total_nodes (ts_builder st') /\
  skipn (Z.to_nat (h_total_nodes (ts_builder st'))) (ts_nodes st')
  = repeat d (Z.to_nat (h_total_nodes (ts_builder st'))).
Proof.
  intros Hf Hh Hbody.
  rewrite loop_body_cases in Hbody. cbv zeta in Hbody.
  destruct (doSplit_host b0 st Hf Hh) as (_ & _ & Hlen & Htail & _).
  destruct Hf as (Hp & Hs0 & Hse & Het & Hbs). destruct Hh as (Hl & _).
  set (res := doSplit sz d device st) in *. clearbody res.
  destruct res as [[st1 new] ops]. cbn [fst snd] in *.
  destruct ((_ =? 0) && _) eqn:E; [|discriminate].
  apply andb_true_iff in E. destruct E as [E0 E1].
  apply Z.eqb_eq in E0. apply Z.eqb_eq in E1.
  injection Hbody as <-. cbn [ts_builder ts_nodes].
  unfold set_frontier. cbn [h_total_nodes].
  split; [lia|]. rewrite Htail. f_equal. lia.
Qed.

Lemma loop_top_ok b h dev st :
  1 <= max_batch_size (params b) ->
  loop_top sz d reg reset device b h dev st ->
  frontier_ok b (ts_builder st) /\ host_ok d (ts_builder st) (ts_nodes st).
Proof.
  intros Hmb Htop. induction Htop as [|st st' Htop IH Hbody].
  - apply init_ok. exact Hmb.
  - destruct IH as [Hf Hh]. split.
    + eapply continue_frontier; eassumption.
    + eapply continue_host; eassumption.
Qed.

Lemma train_loop_breaks b h dev fuel st r :
  loop_top sz d reg reset device b h dev st ->
  train_loop sz d device fuel st = Some r ->
  exists st1,
    loop_top sz d reg reset device b h dev st1 /\
    loop_body sz d device st1 = Break r.
Proof.
  revert st. induction fuel as [|fuel IH]; intros st Htop Hrun; [discriminate|].
  cbn [train_loop] in Hrun.
  destruct (column_loop_ends (ts_builder st)); [|discriminate].
  destruct (loop_body sz d device st) as [st'|st'] eqn:Hbody.
  - injection Hrun as <-. exists st. split; assumption.
  - apply (IH st'); [|exact Hrun]. eapply top_next; eassumption.
Qed.

Lemma train_returns b h dev fuel st nl dp :
  train sz d reg reset device counters fuel b h dev = Some (st, nl, dp) ->
  train_loop sz d device fuel (fst (init sz d reg reset b h dev)) = Some st.
Proof.
  unfold train.
  destruct (init sz d reg reset b h dev) as [st0 ops]. cbn [fst].
  destruct (train_loop sz d device fuel st0) as [st1|]; [|discriminate].
  destruct (counters (ts_device st1)) as [nl' dp'].
  intros H. injection H as -> _ _. reflexivity.
Qed.

End DriverFacts.

Lemma loop_top_frontier sz d reg D reset (device : D -> Z -> list Node -> DeviceResult D)
      b h dev st :
  1 <= max_batch_size (params b) ->
  loop_top sz d reg reset device b h dev st -> frontier_ok b (ts_builder st).
Proof.
  intros Hmb Htop. induction Htop as [|st st' Htop IH Hbody].
  - apply init_ok. exact Hmb.
  - eapply continue_frontier; eassumption.
Qed.

(** C6: with [max_batch_size >= 1], at every iteration of the loop of [train]
    the frontier satisfies [node_start <= node_end <= h_total_nodes] and
    holds at most [max_batch_size] nodes.  One pass of the loop body adds the
    new nodes of [doSplit] to [h_total_nodes]; it leaves the loop exactly
    when [doSplit] returned zero new nodes and [node_end] equals
    [h_total_nodes], with the frontier as it was; otherwise it goes on with
    [updateNodeRange], which sets [node_start] to the old [node_end] and
    [node_end] to the old [node_end] plus
    [min(h_total_nodes - node_end, max_batch_size)], over the updated
    [h_total_nodes].  When [train] returns, it does so from such a pass,
    with [node_end = h_total_nodes]. *)
Theorem C6_frontier_range
        sz d reg D reset (device : D -> Z -> list Node -> DeviceResult D)
        b h dev :
  1 <= max_batch_size (params b) ->
  (forall st, loop_top sz d reg reset device b h dev st ->
     let b1 := ts_builder st in
     node_start b1 <= node_end b1 /\
     node_end b1 <= h_total_nodes b1 /\
     node_end b1 - node_start b1 <= max_batch_size (params b1)) /\
  (forall st,
     let b1 := ts_builder st in
     let new := snd (fst (doSplit sz d device st)) in
     match loop_body sz d device st with
     | Continue st' =>
         let b2 := ts_builder st' in
         ~ (new = 0 /\ node_end b1 = h_total_nodes b1) /\
         h_total_nodes b2 = h_total_nodes b1 + new /\
         node_start b2 = node_end b1 /\
         node_end b2 =
           node_end b1
           + Z.min (h_total_nodes b1 + new - node_end b1)
                   (max_batch_size (params b1)) /\
         b2 = updateNodeRange
                (set_frontier b1 (h_total_nodes b1 + new)
                              (node_start b1) (node_end b1)) /\
         ts_nodes st' = ts_nodes (fst (fst (doSplit sz d device st)))
     | Break st' =>
         let b2 := ts_builder st' in
         new = 0 /\ node_end b1 = h_total_nodes b1 /\
         h_total_nodes b2 = h_total_nodes b1 /\
         node_start b2 = node_start b1 /\ node_end b2 = node_end b1 /\
         ts_nodes st' = ts_nodes (fst (fst (doSplit sz d device st)))
     end) /\
  (forall b1,
     node_start (updateNodeRange b1) = node_end b1 /\
     node_end (updateNodeRange b1) =
       node_end b1
       + Z.min (h_total_nodes b1 - node_end b1) (max_batch_size (params b1)) /\
     h_total_nodes (updateNodeRange b1) = h_total_nodes b1) /\
  (forall st,
     (exists st', loop_body sz d device st = Break st') <->
     (snd (fst (doSplit sz d device st)) = 0 /\
      node_end (ts_builder st) = h_total_nodes (ts_builder st))) /\
  (forall counters fuel st nl dp,
     train sz d reg reset device counters fuel b h dev = Some (st, nl, dp) ->
     exists st1,
       loop_top sz d reg reset device b h dev st1 /\
       loop_body sz d device st1 = Break st /\
       snd (fst (doSplit sz d device st1)) = 0 /\
       node_end (ts_builder st) = h_total_nodes (ts_builder st)).
Proof.
  intros Hmb. split; [|split; [|split; [|split]]].
  - intros st Htop. cbv zeta.
    destruct (loop_top_frontier sz d reg D reset device b h dev st Hmb Htop)
      as (_ & _ & Hse & Het & Hbs).
    repeat split; assumption.
  - intros st. cbv zeta. rewrite loop_body_cases. cbv zeta.
    pose proof (doSplit_builder sz d D device st) as Hb.
    set (res := doSplit sz d device st) in *. clearbody res.
    destruct res as [[st1 new] ops]. cbn [fst snd] in *.
    destruct (new =? 0) eqn:E0;
      [destruct (node_end (ts_builder st) =? h_total_nodes (ts_builder st) + new)
                eqn:E1|]; cbn [andb].
    + apply Z.eqb_eq in E0. apply Z.eqb_eq in E1. subst new.
      cbn [ts_builder ts_nodes]. unfold set_frontier.
      cbn [h_total_nodes node_start node_end].
      repeat split; try reflexivity; lia.
    + apply Z.eqb_eq in E0. apply Z.eqb_neq in E1.
      cbn [ts_builder ts_nodes]. unfold updateNodeRange, set_frontier.
      cbn [h_total_nodes node_start node_end params].
      split; [intros [_ H]; apply E1; lia|].
      repeat split; try reflexivity; lia.
    + apply Z.eqb_neq in E0.
      cbn [ts_builder ts_nodes]. unfold updateNodeRange, set_frontier.
      cbn [h_total_nodes node_start node_end params].
      split; [intros [H _]; contradiction|].
      repeat split; try reflexivity; lia.
  - intros b1. unfold updateNodeRange. cbn.
    split; [reflexivity|]. split; [lia|reflexivity].
  - intros st. rewrite loop_body_cases. cbv zeta.
    set (res := doSplit sz d device st). clearbody res.
    destruct res as [[st1 new] ops]. cbn [fst snd].
    destruct (new =? 0) eqn:E0.
    + apply Z.eqb_eq in E0. rewrite E0, Z.add_0_r.
      destruct (node_end (ts_builder st) =? h_total_nodes (ts_builder st))
               eqn:E1; cbn [andb].
      * apply Z.eqb_eq in E1. split; [intros _; split; [reflexivity|exact E1]|].
        intros _. eexists. reflexivity.
      * apply Z.eqb_neq in E1. split; [intros [st' H]; discriminate H|].
        intros [_ H]. contradiction.
    + apply Z.eqb_neq in E0. cbn [andb].
      split; [intros [st' H]; discriminate H|].
      intros [H _]. contradiction.
  - intros counters fuel st nl dp Hrun.
    apply train_returns in Hrun.
    destruct (train_loop_breaks sz d reg D reset device b h dev fuel _ _
                (top_init sz d reg reset device b h dev) Hrun)
      as (st1 & Htop1 & Hbody).
    exists st1. split; [exact Htop1|]. split; [exact Hbody|].
    rewrite loop_body_cases in Hbody. cbv zeta in Hbody.
    set (res := doSplit sz d device st1) in *. clearbody res.
    destruct res as [[st2 new] ops]. cbn [fst snd] in *.
    destruct ((new =? 0) && _) eqn:E; [|discriminate].
    apply andb_true_iff in E. destruct E as [E0 E1].
    apply Z.eqb_eq in E0. apply Z.eqb_eq in E1.
    injection Hbody as <-. cbn [ts_builder].
    unfold set_frontier. cbn [node_end h_total_nodes].
    split; [exact E0|exact E1].
Qed.

(** The second batch of a run in which the root is split into two
    children: the frontier is the two children, nodes 1 and 2. *)
Lemma C6_frontier_range_witness :
  let st0 := fst (init sizes_float_int node0 false reset_leaves
                       (builder_for params_example 2) [] 0) in
  match loop_body sizes_float_int node0 split_root_device st0 with
  | Continue st1 =>
      let b1 := ts_builder st1 in
      h_total_nodes b1 = 3 /\ node_start b1 = 1 /\ node_end b1 = 3 /\
      node_start b1 <= node_end b1 /\
      node_end b1 <= h_total_nodes b1 /\
      node_end b1 - node_start b1 <= max_batch_size (params b1)
  | Break _ => False
  end.
Proof.
  assert (Hmb : 1 <= max_batch_size (params (builder_for params_example 2)))
    by (vm_compute; discriminate).
  destruct (C6_frontier_range sizes_float_int node0 false Z reset_leaves
              split_root_device (builder_for params_example 2) [] 0 Hmb)
    as (Hinv & Hstep & _).
  cbv zeta.
  specialize (Hstep (fst (init sizes_float_int node0 false reset_leaves
                               (builder_for params_example 2) [] 0))).
  cbv zeta in Hstep.
  destruct (loop_body sizes_float_int node0 split_root_device
              (fst (init sizes_float_int node0 false reset_leaves
                         (builder_for params_example 2) [] 0)))
    as [st1|st1] eqn:E.
  - vm_compute in E. discriminate E.
  - pose proof (Hinv st1 (top_next _ _ _ _ _ _ _ _ _ _
                            (top_init _ _ _ _ _ _ _ _) E)) as Hf.
    cbv zeta in Hf.
    destruct Hstep as (_ & Ht & Hs & He & _).
    split; [rewrite Ht; vm_compute; reflexivity|].
    split; [rewrite Hs; vm_compute; reflexivity|].
    split; [rewrite He; vm_compute; reflexivity|].
    exact Hf.
Defined.

(** C3: [h_nodes] does not end up with [h_total_nodes] entries.  With
    [max_batch_size >= 1] and a device that hands back as many batch nodes
    as it was given, each [doSplit] grows [h_nodes] by
    [batchSize + *h_n_nodes], although it writes the [batchSize] updated
    parents in place at [node_start] and only the [*h_n_nodes] new children
    at index [h_total_nodes]; so when [train] returns, [h_nodes] has
    [2 * h_total_nodes] entries, of which the last [h_total_nodes] are
    value-initialised nodes that nothing wrote.  When the root becomes a
    leaf, [train] returns with [h_total_nodes = 1] and an [h_nodes] of two
    entries. *)
Theorem C3_host_nodes_after_train :
  (forall sz d reg D reset (device : D -> Z -> list Node -> DeviceResult D)
          counters b h dev,
     (forall dv t batch,
         length (dr_curr_nodes (device dv t batch)) = length batch) ->
     1 <= max_batch_size (params b) ->
     (forall fuel st nl dp,
        train sz d reg reset device counters fuel b h dev = Some (st, nl, dp) ->
        Z.of_nat (length (ts_nodes st)) = 2 * h_total_nodes (ts_builder st) /\
        skipn (Z.to_nat (h_total_nodes (ts_builder st))) (ts_nodes st)
        = repeat d (Z.to_nat (h_total_nodes (ts_builder st)))) /\
     (forall st,
        loop_top sz d reg reset device b h dev st ->
        let b1 := ts_builder st in
        let h1 := ts_nodes st in
        let r := device (ts_device st) (h_total_nodes b1) (batch_of b1 h1) in
        let h2 := ts_nodes (fst (fst (doSplit sz d device st))) in
        let new := snd (fst (doSplit sz d device st)) in
        new = Z.of_nat (length (dr_next_nodes r)) /\
        Z.of_nat (length h2) =
          Z.of_nat (length h1) + (node_end b1 - node_start b1) + new /\
        firstn (Z.to_nat (node_start b1)) h2
        = firstn (Z.to_nat (node_start b1)) h1 /\
        firstn (Z.to_nat (node_end b1 - node_start b1))
               (skipn (Z.to_nat (node_start b1)) h2) = dr_curr_nodes r /\
        firstn (Z.to_nat (h_total_nodes b1 - node_end b1))
               (skipn (Z.to_nat (node_end b1)) h2)
        = firstn (Z.to_nat (h_total_nodes b1 - node_end b1))
                 (skipn (Z.to_nat (node_end b1)) h1) /\
        firstn (Z.to_nat new) (skipn (Z.to_nat (h_total_nodes b1)) h2)
        = dr_next_nodes r)) /\
  match train sizes_float_int node0 false reset_leaves leaf_device
              leaves_and_depth 1 (builder_for params_example 2) [] 0 with
  | Some (st, num_leaves, depth) =>
      h_total_nodes (ts_builder st) = 1 /\ num_leaves = 1 /\
      length (ts_nodes st) = 2%nat /\
      nth 1 (ts_nodes st) (child 0 0 0) = node0
  | None => False
  end /\
  match train sizes_float_int node0 false reset_leaves split_root_device
              leaves_and_depth 2 (builder_for params_example 2) [] 0 with
  | Some (st, num_leaves, depth) =>
      h_total_nodes (ts_builder st) = 3 /\ num_leaves = 2 /\
      length (ts_nodes st) = 6%nat /\
      skipn 3 (ts_nodes st) = [node0; node0; node0]
  | None => False
  end.
Proof.
  split; [|split].
  - intros sz d reg D reset device counters b h dev Hdev Hmb. split.
    + intros fuel st nl dp Hrun.
      apply train_returns in Hrun.
      pose proof (top_init sz d reg reset device b h dev) as Htop.
      destruct (train_loop_breaks sz d reg D reset device b h dev fuel _ _
                                  Htop Hrun) as (st1 & Htop1 & Hbody).
      destruct (loop_top_ok sz d reg D reset device Hdev b h dev st1 Hmb Htop1)
        as [Hf Hh].
      exact (break_host sz d D device Hdev b st1 st Hf Hh Hbody).
    + intros st Htop. cbv zeta.
      destruct (loop_top_ok sz d reg D reset device Hdev b h dev st Hmb Htop)
        as [Hf Hh].
      destruct (doSplit_host sz d D device Hdev b st Hf Hh)
        as (_ & H1 & H2 & _ & H4 & H5 & H6 & H7).
      repeat split; assumption.
  - vm_compute. repeat split; reflexivity.
  - vm_compute. repeat split; reflexivity.
Qed.

(** * Further properties of the embedded code *)

(** ** Alignment and workspace sizes *)

Lemma accumulate_from_multiple sizes d0 :
  d0 mod 512 = 0 ->
  fold_left (fun d s => Raft.wrap (d + calculateAlignedBytes s)) sizes d0 mod 512 = 0.
Proof.
  revert d0. induction sizes as [|s l IH]; intros d0 H0; cbn [fold_left].
  - exact H0.
  - apply IH. rewrite wrap_mod_512, Z.add_mod by discriminate.
    rewrite H0, calculateAlignedBytes_multiple. reflexivity.
Qed.

Lemma accumulate_from_range sizes d0 :
  0 <= d0 < 2 ^ 64 ->
  0 <= fold_left (fun d s => Raft.wrap (d + calculateAlignedBytes s)) sizes d0 < 2 ^ 64.
Proof.
  revert d0. induction sizes as [|s l IH]; intros d0 H0; cbn [fold_left].
  - exact H0.
  - apply IH. apply wrap_range.
Qed.

(** X1: for a size of at most [2^64 - 512] bytes, [calculateAlignedBytes]
    returns the least multiple of 512 that is not below the size, and
    aligning an aligned size changes nothing. *)
Theorem X1_calculateAlignedBytes_rounds_up x :
  0 <= x <= 2 ^ 64 - 512 ->
  x <= calculateAlignedBytes x < x + 512 /\
  calculateAlignedBytes x mod 512 = 0 /\
  calculateAlignedBytes (calculateAlignedBytes x) = calculateAlignedBytes x.
Proof.
  intros Hx. pose proof (align512_ge x) as Hg.
  pose proof (align512_multiple x) as Hm.
  assert (E : calculateAlignedBytes x = align512 x)
    by (apply calculateAlignedBytes_small; lia).
  rewrite E. split; [exact Hg|]. split; [exact Hm|].
  assert (Hle : align512 x <= 2 ^ 64 - 512).
  { pose proof (Z.div_mod (align512 x) 512 ltac:(discriminate)) as D.
    rewrite Hm in D. lia. }
  rewrite calculateAlignedBytes_small.
  - unfold align512 at 1.
    pose proof (Z.div_mod (align512 x) 512 ltac:(discriminate)) as D.
    rewrite Hm in D.
    replace (align512 x + 511) with (511 + align512 x / 512 * 512) by lia.
    rewrite Z.div_add by discriminate.
    change (511 / 512) with 0. lia.
  - lia.
  - pose proof (align512_ge (align512 x)).
    unfold align512 at 1.
    pose proof (Z.div_mod (align512 x) 512 ltac:(discriminate)) as D.
    rewrite Hm in D.
    replace (align512 x + 511) with (511 + align512 x / 512 * 512) by lia.
    rewrite Z.div_add by discriminate.
    change (511 / 512) with 0. lia.
Qed.

Lemma X1_calculateAlignedBytes_rounds_up_witness :
  1000 <= calculateAlignedBytes 1000 < 1000 + 512 /\
  calculateAlignedBytes 1000 mod 512 = 0 /\
  calculateAlignedBytes (calculateAlignedBytes 1000) = calculateAlignedBytes 1000.
Proof.
  apply (X1_calculateAlignedBytes_rounds_up 1000).
  split; vm_compute; discriminate.
Defined.

(** X2: for a size within the last 511 values of [size_t], the addition in
    [raft::ceildiv] wraps around and [calculateAlignedBytes] returns 0. *)
Theorem X2_calculateAlignedBytes_wraps x :
  2 ^ 64 - 512 < x < 2 ^ 64 -> calculateAlignedBytes x = 0.
Proof.
  intros Hx. unfold calculateAlignedBytes, Raft.alignTo, Raft.ceildiv, alignValue.
  assert (E : Raft.wrap (x + 512 - 1) = x + 511 - 2 ^ 64).
  { unfold Raft.wrap, Raft.size_bits.
    replace (x + 512 - 1) with ((x + 511 - 2 ^ 64) + 1 * 2 ^ 64) by lia.
    rewrite Z.mod_add by discriminate. apply Z.mod_small. lia. }
  rewrite E. rewrite Z.div_small by lia. reflexivity.
Qed.

Lemma X2_calculateAlignedBytes_wraps_witness :
  calculateAlignedBytes (2 ^ 64 - 1) = 0.
Proof.
  apply (X2_calculateAlignedBytes_wraps (2 ^ 64 - 1)).
  split; vm_compute; reflexivity.
Defined.

(** X3: whatever the arguments, the two sizes [workspaceSize] reports are
    multiples of 512 that fit a [size_t]. *)
Theorem X3_workspaceSize_reports_aligned sz b t s p data labels tr tc sr sc rowids nclasses q d h :
  snd (workspaceSize sz b t s p data labels tr tc sr sc rowids nclasses q)
  = Returned (d, h) ->
  d mod 512 = 0 /\ h mod 512 = 0 /\ 0 <= d < 2 ^ 64 /\ 0 <= h < 2 ^ 64.
Proof.
  rewrite workspaceSize_outcome.
  destruct (q =? nullptr); [discriminate|].
  destruct (negb (1 <=? nclasses)); [discriminate|].
  cbv zeta. intros H. injection H as <- <-.
  unfold accumulate_aligned. split; [|split; [|split]].
  - apply accumulate_from_multiple. reflexivity.
  - apply calculateAlignedBytes_multiple.
  - apply accumulate_from_range. split; [lia|reflexivity].
  - unfold calculateAlignedBytes, Raft.alignTo. apply wrap_range.
Qed.

Lemma X3_workspaceSize_reports_aligned_witness :
  13312 mod 512 = 0 /\ 512 mod 512 = 0 /\
  0 <= 13312 < 2 ^ 64 /\ 0 <= 512 < 2 ^ 64.
Proof.
  apply (X3_workspaceSize_reports_aligned sizes_float_int builder0 0 0
           params_example 4096 8192 100 4 100 4 12288 2 16384 13312 512).
  vm_compute. reflexivity.
Defined.

(** X4: when the aligned sizes of the ten regions, as the stored members
    give them, add up without wrapping around, the device size
    [workspaceSize] reports exceeds the sum of the unaligned sizes by less
    than 4608 bytes (nine regions of non-zero size, each padded by less
    than 512). *)
Theorem X4_workspaceSize_padding sz b t s p data labels tr tc sr sc rowids ncl q :
  q <> nullptr -> 1 <= ncl ->
  let r := workspaceSize sz b t s p data labels tr tc sr sc rowids ncl q in
  let sizes := workspace_regions sz (fst (fst r)) in
  Zsum (map align512 sizes) < 2 ^ 64 ->
  exists d h,
    snd r = Returned (d, h) /\
    Zsum sizes <= d < Zsum sizes + 4608.
Proof.
  intros Hq Hn. cbv zeta.
  pose proof (workspaceSize_reports sz b t s p data labels tr tc sr sc rowids
                ncl q Hq Hn) as Hout.
  destruct (workspaceSize_members sz b t s p data labels tr tc sr sc rowids
              ncl q Hq Hn) as (_ & _ & _ & Hbs & _).
  revert Hout Hbs.
  generalize (workspaceSize sz b t s p data labels tr tc sr sc rowids ncl q).
  intros r Hout Hbs Hfit.
  eexists. eexists. split; [exact Hout|].
  unfold accumulate_aligned.
  rewrite accumulate_from_small; [|lia| |lia].
  - revert Hfit. unfold workspace_regions, region_bytes. rewrite Hbs.
    cbn [map Zsum]. change (Raft.wrap 0) with 0. change (align512 0) with 0.
    intros _.
    repeat match goal with
           | |- context [align512 ?x] =>
               pose proof (align512_ge x); generalize dependent (align512 x);
               intros
           end.
    lia.
  - eapply Forall_impl; [|apply region_bytes_range]. cbn. intros a Ha. lia.
Qed.

Lemma X4_workspaceSize_padding_witness :
  let r := workspaceSize sizes_float_int builder0 0 0 params_example
                         4096 8192 100 4 100 4 12288 2 16384 in
  let sizes := workspace_regions sizes_float_int (fst (fst r)) in
  exists d h,
    snd r = Returned (d, h) /\
    Zsum sizes <= d < Zsum sizes + 4608.
Proof.
  apply (X4_workspaceSize_padding sizes_float_int builder0 0 0 params_example
           4096 8192 100 4 100 4 12288 2 16384).
  - discriminate.
  - lia.
  - vm_compute. reflexivity.
Defined.

(** X5: [workspaceSize] never raises [n_blks_for_cols]: after two calls on
    the same builder the member is the minimum of its old value and of both
    [sampledCols], and the second call sizes [nHistBins] (an [int]) with
    that minimum, also when its own [sampledCols] is larger. *)
Theorem X5_workspaceSize_clamp_is_sticky sz b t1 s1 p1 d1 l1 tr1 tc1 sr1 sc1 r1 n1 q1
           t2 s2 p2 d2 l2 tr2 tc2 sr2 sc2 r2 n2 q2 :
  q1 <> nullptr -> q2 <> nullptr -> 1 <= n2 ->
  let b1 := fst (fst (workspaceSize sz b t1 s1 p1 d1 l1 tr1 tc1 sr1 sc1 r1 n1 q1)) in
  let b2 := fst (fst (workspaceSize sz b1 t2 s2 p2 d2 l2 tr2 tc2 sr2 sc2 r2 n2 q2)) in
  n_blks_for_cols b1 = Z.min sc1 (n_blks_for_cols b) /\
  n_blks_for_cols b2 = Z.min sc2 (Z.min sc1 (n_blks_for_cols b)) /\
  n_blks_for_cols b2 <= n_blks_for_cols b1 <= n_blks_for_cols b /\
  nHistBins b2 =
    int_wrap (spec_hist_bins p2 (Z.min sc2 (Z.min sc1 (n_blks_for_cols b))) n2).
Proof.
  intros Hq1 Hq2 Hn2. cbv zeta.
  pose proof (workspaceSize_n_blks sz b t1 s1 p1 d1 l1 tr1 tc1 sr1 sc1 r1 n1 q1
                Hq1) as E1.
  set (b1 := fst (fst (workspaceSize sz b t1 s1 p1 d1 l1 tr1 tc1 sr1 sc1 r1
                                     n1 q1))) in *.
  destruct (workspaceSize_members sz b1 t2 s2 p2 d2 l2 tr2 tc2 sr2 sc2 r2 n2 q2
              Hq2 Hn2) as (_ & E2 & Eh & _).
  rewrite E2, Eh, E1. repeat split; try lia.
  f_equal. unfold spec_hist_bins. ring.
Qed.

Lemma X5_workspaceSize_clamp_is_sticky_witness :
  let b1 := builder_cols 3 in
  let b2 := fst (fst (workspaceSize sizes_float_int b1 0 0 params_example
                                    4096 8192 100 25 100 25 12288 2 16384)) in
  n_blks_for_cols b1 = Z.min 3 (n_blks_for_cols builder0) /\
  n_blks_for_cols b2 = Z.min 25 (Z.min 3 (n_blks_for_cols builder0)) /\
  n_blks_for_cols b2 <= n_blks_for_cols b1 <= n_blks_for_cols builder0 /\
  nHistBins b2 =
    int_wrap (spec_hist_bins params_example
                (Z.min 25 (Z.min 3 (n_blks_for_cols builder0))) 2).
Proof.
  apply (X5_workspaceSize_clamp_is_sticky sizes_float_int builder0
           0 0 params_example 4096 8192 100 25 100 3 12288 2 16384
           0 0 params_example 4096 8192 100 25 100 25 12288 2 16384).
  - discriminate.
  - discriminate.
  - lia.
Defined.

(** X6: a failed assertion on [quantiles] leaves the builder untouched;
    a failed assertion on [nclasses] leaves it half updated: the parameters,
    tree id, seed, clamp and input view are the new ones, while
    [input.quantiles], [nHistBins], [maxNodes] and [block_sync_size] still
    hold their old values. *)
Theorem X6_workspaceSize_failed_assertion sz b t s p data labels tr tc sr sc rowids nclasses q :
  let r := workspaceSize sz b t s p data labels tr tc sr sc rowids nclasses q in
  let b' := fst (fst r) in
  (q = nullptr -> b' = b) /\
  (q <> nullptr -> nclasses < 1 ->
   params b' = p /\ treeid b' = t /\ seed b' = s /\
   n_blks_for_cols b' = Z.min sc (n_blks_for_cols b) /\
   in_nclasses (input b') = nclasses /\
   in_nSampledCols (input b') = sc /\
   in_quantiles (input b') = in_quantiles (input b) /\
   nHistBins b' = nHistBins b /\ maxNodes b' = maxNodes b /\
   block_sync_size b' = block_sync_size b).
Proof.
  cbv zeta. unfold workspaceSize. split.
  - intros ->. reflexivity.
  - intros Hq Hn.
    destruct (q =? nullptr) eqn:E; [apply Z.eqb_eq in E; contradiction|].
    destruct (1 <=? nclasses) eqn:E'; [apply Z.leb_le in E'; lia|].
    cbn. repeat split; reflexivity.
Qed.

(** X7: the [maxNodes] that [workspaceSize] stores lies between -1 and 8191,
    is at least 1 for a non-negative [max_depth], is 8191 from depth 12 on,
    and never decreases when [max_depth] grows. *)
Theorem X7_maxNodes_capped_monotone sz b1 b2 t1 s1 p1 d1 l1 tr1 tc1 sr1 sc1 r1 n1 q1
           t2 s2 p2 d2 l2 tr2 tc2 sr2 sc2 r2 n2 q2 :
  q1 <> nullptr -> 1 <= n1 -> q2 <> nullptr -> 1 <= n2 ->
  let m1 := maxNodes (fst (fst (workspaceSize sz b1 t1 s1 p1 d1 l1 tr1 tc1 sr1 sc1 r1 n1 q1))) in
  let m2 := maxNodes (fst (fst (workspaceSize sz b2 t2 s2 p2 d2 l2 tr2 tc2 sr2 sc2 r2 n2 q2))) in
  -1 <= m1 <= 8191 /\
  (0 <= max_depth p1 -> 1 <= m1) /\
  (12 <= max_depth p1 -> m1 = 8191) /\
  (max_depth p1 <= max_depth p2 -> m1 <= m2).
Proof.
  intros Hq1 Hn1 Hq2 Hn2. cbv zeta.
  destruct (workspaceSize_members sz b1 t1 s1 p1 d1 l1 tr1 tc1 sr1 sc1 r1 n1 q1
              Hq1 Hn1) as (_ & _ & _ & _ & ->).
  destruct (workspaceSize_members sz b2 t2 s2 p2 d2 l2 tr2 tc2 sr2 sc2 r2 n2 q2
              Hq2 Hn2) as (_ & _ & _ & _ & ->).
  assert (Hrange : forall d,
            -1 <= (if d <? 13 then dense_tree_nodes d else 8191) /\
            (if d <? 13 then dense_tree_nodes d else 8191) <= 8191).
  { intros d. destruct (d <? 13) eqn:E; [|lia]. apply Z.ltb_lt in E.
    unfold dense_tree_nodes. cbv zeta.
    destruct (0 <=? d + 1) eqn:E0.
    - apply Z.leb_le in E0.
      assert (2 ^ (d + 1) <= 2 ^ 13) by (apply Z.pow_le_mono_r; lia).
      assert (0 < 2 ^ (d + 1)) by (apply Z.pow_pos_nonneg; lia).
      change (2 ^ 13) with 8192 in *. lia.
    - destruct (-53 <=? d + 1); lia. }
  assert (Hmono : forall a c, a <= c ->
            (if a <? 13 then dense_tree_nodes a else 8191)
            <= (if c <? 13 then dense_tree_nodes c else 8191)).
  { intros a c Hac. destruct (c <? 13) eqn:Ec.
    - apply Z.ltb_lt in Ec.
      assert (Ea : (a <? 13) = true) by (apply Z.ltb_lt; lia). rewrite Ea.
      unfold dense_tree_nodes. cbv zeta.
      destruct (0 <=? a + 1) eqn:E0; destruct (0 <=? c + 1) eqn:E1;
        try apply Z.leb_le in E0; try apply Z.leb_le in E1;
        try apply Z.leb_gt in E0; try apply Z.leb_gt in E1; try lia.
      + assert (2 ^ (a + 1) <= 2 ^ (c + 1)) by (apply Z.pow_le_mono_r; lia). lia.
      + assert (0 < 2 ^ (c + 1)) by (apply Z.pow_pos_nonneg; lia).
        destruct (-53 <=? a + 1); lia.
      + destruct (-53 <=? a + 1) eqn:F0; destruct (-53 <=? c + 1) eqn:F1;
          try apply Z.leb_le in F0; try apply Z.leb_le in F1;
          try apply Z.leb_gt in F0; try apply Z.leb_gt in F1; lia.
    - apply (Hrange a). }
  split; [apply Hrange|]. split; [|split].
  - intros Hd. destruct (max_depth p1 <? 13) eqn:E; [|lia].
    rewrite dense_tree_nodes_pow by exact Hd.
    assert (2 ^ 1 <= 2 ^ (max_depth p1 + 1)) by (apply Z.pow_le_mono_r; lia).
    change (2 ^ 1) with 2 in *. lia.
  - intros Hd. destruct (max_depth p1 <? 13) eqn:E; [|reflexivity].
    apply Z.ltb_lt in E. assert (max_depth p1 = 12) as -> by lia. reflexivity.
  - apply Hmono.
Qed.

Lemma X7_maxNodes_capped_monotone_witness :
  let m1 := maxNodes (fst (fst (workspaceSize sizes_float_int builder0 0 0
                                  params_example 4096 8192 100 4 100 4 12288
                                  2 16384))) in
  let m2 := maxNodes (fst (fst (workspaceSize sizes_float_int builder0 0 0
                                  (mkParams 20 (-1) 32 1 2 0 8 0)
                                  4096 8192 100 4 100 4 12288 2 16384))) in
  -1 <= m1 <= 8191 /\
  (0 <= max_depth params_example -> 1 <= m1) /\
  (12 <= max_depth params_example -> m1 = 8191) /\
  (max_depth params_example <= max_depth (mkParams 20 (-1) 32 1 2 0 8 0) ->
   m1 <= m2).
Proof.
  apply (X7_maxNodes_capped_monotone sizes_float_int builder0 builder0
           0 0 params_example 4096 8192 100 4 100 4 12288 2 16384
           0 0 (mkParams 20 (-1) 32 1 2 0 8 0)
           4096 8192 100 4 100 4 12288 2 16384).
  - discriminate.
  - lia.
  - discriminate.
  - lia.
Defined.

(** ** Strided loops and launch grids *)

Lemma strided_In fuel start step bound i :
  1 <= step -> bound - start <= Z.of_nat fuel ->
  In i (strided fuel start step bound) <->
  start <= i < bound /\ (i - start) mod step = 0.
Proof.
  intros Hstep. revert start.
  induction fuel as [|f IH]; intros start Hfuel; cbn [strided].
  - split; [intros []|]. lia.
  - destruct (start <? bound) eqn:E.
    + apply Z.ltb_lt in E. cbn [In]. rewrite IH by lia.
      replace (i - (start + step)) with ((i - start) + (-1) * step) by lia.
      rewrite Z.mod_add by lia.
      split.
      * intros [<-|[Hr Hm]].
        -- rewrite Z.sub_diag. split; [lia|]. apply Z.mod_0_l. lia.
        -- split; [lia|exact Hm].
      * intros [Hr Hm].
        destruct (Z.eq_dec i start) as [->|Hne]; [left; reflexivity|right].
        split; [|exact Hm].
        assert (Hd : i - start = step * ((i - start) / step)).
        { pose proof (Z.div_mod (i - start) step ltac:(lia)) as D.
          rewrite Hm in D. lia. }
        assert (0 < (i - start) / step) by nia.
        nia.
    + apply Z.ltb_ge in E. split; [intros []|]. lia.
Qed.

Lemma strided_NoDup fuel start step bound :
  1 <= step -> bound - start <= Z.of_nat fuel ->
  NoDup (strided fuel start step bound).
Proof.
  intros Hstep. revert start.
  induction fuel as [|f IH]; intros start Hfuel; cbn [strided].
  - constructor.
  - destruct (start <? bound) eqn:E; [|constructor].
    constructor; [|apply IH; lia].
    rewrite strided_In by lia. lia.
Qed.

Lemma mod_shift i t n :
  1 <= n -> 0 <= t < n ->
  (t <= i /\ (i - t) mod n = 0) <-> (0 <= i /\ i mod n = t).
Proof.
  intros Hn Ht. split.
  - intros [Hi Hm].
    pose proof (Z.div_mod (i - t) n ltac:(lia)) as D. rewrite Hm in D.
    split; [lia|].
    replace i with (t + (i - t) / n * n) by lia.
    rewrite Z.mod_add by lia. apply Z.mod_small. exact Ht.
  - intros [Hi Hm].
    pose proof (Z.div_mod i n ltac:(lia)) as D. rewrite Hm in D.
    assert (0 <= i / n) by (apply Z.div_pos; lia).
    split; [nia|].
    replace (i - t) with (i / n * n) by lia.
    apply Z.mod_mul. lia.
Qed.

Lemma column_blocks_In (b : Builder) c :
  1 <= n_blks_for_cols b ->
  In c (column_blocks b) <->
  0 <= c < in_nSampledCols (input b) /\ c mod n_blks_for_cols b = 0.
Proof.
  intros Hn. unfold column_blocks. rewrite strided_In by lia.
  rewrite Z.sub_0_r. tauto.
Qed.

Lemma n_blks_for_rows_bounds mpcount maxblks gridDimy gridDimz :
  1 <= gridDimy -> 1 <= gridDimz -> 0 <= maxblks * mpcount ->
  let x := n_blks_for_rows mpcount maxblks gridDimy gridDimz in
  (x - 1) * (gridDimy * gridDimz) < maxblks * mpcount /\
  maxblks * mpcount <= x * (gridDimy * gridDimz) /\
  (x = 0 <-> maxblks * mpcount = 0).
Proof.
  intros Hy Hz Hn. cbv zeta. unfold n_blks_for_rows, ceildiv_int. cbv zeta.
  set (n := maxblks * mpcount) in *.
  set (g := gridDimy * gridDimz).
  assert (Hg : 1 <= g) by (unfold g; nia).
  rewrite Z.quot_div_nonneg by lia.
  pose proof (Z.div_mod (n + g - 1) g ltac:(lia)) as D.
  pose proof (Z.mod_pos_bound (n + g - 1) g ltac:(lia)) as B.
  split; [nia|]. split; [nia|].
  split; intros H; nia.
Qed.



(** X9: with [n_blks_for_cols >= 1], the column loop of [doSplit] calls
    [computeSplit] at the multiples of [n_blks_for_cols] below
    [nSampledCols], each once; every call covers between 1 and
    [n_blks_for_cols] columns, and every sampled column lies in the range of
    exactly one call. *)
Theorem X9_column_blocks_partition (b : Builder) :
  1 <= n_blks_for_cols b ->
  let n := n_blks_for_cols b in
  let N := in_nSampledCols (input b) in
  (forall c, In c (column_blocks b) <-> 0 <= c < N /\ c mod n = 0) /\
  NoDup (column_blocks b) /\
  (forall c, In c (column_blocks b) -> 1 <= computeSplit_colBlks b c <= n) /\
  (forall k, 0 <= k < N ->
     forall c, In c (column_blocks b) ->
       (c <= k < c + computeSplit_colBlks b c <-> c = n * (k / n))).
Proof.
  intros Hn. cbv zeta.
  assert (HIn : forall c, In c (column_blocks b) <->
                  0 <= c < in_nSampledCols (input b) /\
                  c mod n_blks_for_cols b = 0).
  { intros c. apply column_blocks_In. exact Hn. }
  split; [exact HIn|]. split; [|split].
  - unfold column_blocks. apply strided_NoDup; lia.
  - intros c Hc. apply HIn in Hc. unfold computeSplit_colBlks. lia.
  - intros k Hk c Hc. apply HIn in Hc. destruct Hc as [Hc Hm].
    unfold computeSplit_colBlks.
    pose proof (Z.div_mod c (n_blks_for_cols b) ltac:(lia)) as Dc.
    rewrite Hm in Dc.
    pose proof (Z.div_mod k (n_blks_for_cols b) ltac:(lia)) as Dk.
    pose proof (Z.mod_pos_bound k (n_blks_for_cols b) ltac:(lia)) as Bk.
    split.
    + intros Hr.
      assert (c / n_blks_for_cols b = k / n_blks_for_cols b) by nia.
      nia.
    + intros ->. nia.
Qed.

Lemma X9_column_blocks_partition_witness :
  let b := builder_cols 25 in
  let n := n_blks_for_cols b in
  let N := in_nSampledCols (input b) in
  (forall c, In c (column_blocks b) <-> 0 <= c < N /\ c mod n = 0) /\
  NoDup (column_blocks b) /\
  (forall c, In c (column_blocks b) -> 1 <= computeSplit_colBlks b c <= n) /\
  (forall k, 0 <= k < N ->
     forall c, In c (column_blocks b) ->
       (c <= k < c + computeSplit_colBlks b c <-> c = n * (k / n))).
Proof.
  apply (X9_column_blocks_partition (builder_cols 25)).
  vm_compute. discriminate.
Defined.

(** X10: in the bin loop of [Gain] and of [regressionMetricGain], thread
    [tid] of a block of [blockDim >= 1] threads visits exactly the bins
    [i < nbins] with [i mod blockDim = tid], each once: every bin is
    evaluated by one thread of the block and by no other. *)
Theorem X10_thread_bins_partition blockDim nbins :
  1 <= blockDim ->
  (forall tid i, 0 <= tid < blockDim ->
     (In i (thread_bins tid blockDim nbins) <->
      0 <= i < nbins /\ i mod blockDim = tid)) /\
  (forall tid, NoDup (thread_bins tid blockDim nbins)).
Proof.
  intros Hbd. split.
  - intros tid i Ht. unfold thread_bins.
    rewrite strided_In by lia.
    pose proof (mod_shift i tid blockDim Hbd Ht) as M. tauto.
  - intros tid. unfold thread_bins. apply strided_NoDup; lia.
Qed.

Lemma X10_thread_bins_partition_witness :
  (forall tid i, 0 <= tid < 4 ->
     (In i (thread_bins tid 4 10) <-> 0 <= i < 10 /\ i mod 4 = tid)) /\
  (forall tid, NoDup (thread_bins tid 4 10)).
Proof.
  apply (X10_thread_bins_partition 4 10). lia.
Defined.

(** ** The loop of train: batches, termination, device extents *)

Section TrainFacts.

Variable sz : TypeSizes.
Variable d : Node.
Variable reg : bool.
Variable D : Type.
Variable reset : D -> D.
Variable device : D -> Z -> list Node -> DeviceResult D.
Variable counters : D -> Z * Z.

Lemma continue_advances b0 (st st' : TrainState D) :
  1 <= max_batch_size (params b0) ->
  frontier_ok b0 (ts_builder st) ->
  loop_body sz d device st = Continue st' ->
  node_start (ts_builder st') = node_end (ts_builder st) /\
  node_end (ts_builder st) < node_end (ts_builder st') /\
  h_total_nodes (ts_builder st')
  = h_total_nodes (ts_builder st) + snd (fst (doSplit sz d device st)).
Proof.
  intros Hmb (Hp & Hs0 & Hse & Het & Hbs) Hbody.
  rewrite loop_body_cases in Hbody. cbv zeta in Hbody.
  pose proof (doSplit_new_nonneg sz d D device st) as Hnew.
  set (res := doSplit sz d device st) in *. clearbody res.
  destruct res as [[st1 new] ops]. cbn [fst snd] in *.
  assert (Hcont : (new =? 0) && (node_end (ts_builder st)
                                  =? h_total_nodes (ts_builder st) + new)
                  = false).
  { destruct ((new =? 0) && _); [discriminate|reflexivity]. }
  rewrite Hcont in Hbody. injection Hbody as <-. cbn [ts_builder].
  apply andb_false_iff in Hcont.
  unfold updateNodeRange, set_frontier.
  cbn [node_start node_end h_total_nodes params]. rewrite Hp.
  destruct Hcont as [E|E]; apply Z.eqb_neq in E; lia.
Qed.

Lemma loop_top_nonempty b h dev st :
  1 <= max_batch_size (params b) ->
  loop_top sz d reg reset device b h dev st ->
  node_start (ts_builder st) < node_end (ts_builder st).
Proof.
  intros Hmb Htop. induction Htop as [|st st' Htop IH Hbody].
  - cbn. lia.
  - pose proof (loop_top_frontier sz d reg D reset device b h dev st Hmb Htop)
      as Hf.
    destruct (continue_advances b st st' Hmb Hf Hbody) as (E & L & _). lia.
Qed.

Lemma loop_top_builder b h dev st :
  loop_top sz d reg reset device b h dev st ->
  ts_builder st
  = set_frontier b (h_total_nodes (ts_builder st))
                 (node_start (ts_builder st)) (node_end (ts_builder st)).
Proof.
  intros Htop. induction Htop as [|st st' Htop IH Hbody].
  - reflexivity.
  - rewrite loop_body_cases in Hbody. cbv zeta in Hbody.
    destruct ((_ =? 0) && _); [discriminate|].
    injection Hbody as <-. cbn [ts_builder].
    rewrite IH. reflexivity.
Qed.

(** X11: with [max_batch_size >= 1], every kernel launch and every
    host-to-device copy that [doSplit] enqueues at any iteration of [train]
    is for a batch of at least 1 and at most [max_batch_size] nodes: no
    launch has an empty grid. *)
Theorem X11_doSplit_batch_sizes b h dev st :
  1 <= max_batch_size (params b) ->
  loop_top sz d reg reset device b h dev st ->
  forall op k,
    In op (snd (doSplit sz d device st)) -> launch_batch op = Some k ->
    1 <= k <= max_batch_size (params b).
Proof.
  intros Hmb Htop op k Hin Hk.
  pose proof (loop_top_nonempty b h dev st Hmb Htop) as Hne.
  destruct (loop_top_frontier sz d reg D reset device b h dev st Hmb Htop)
    as (Hp & _ & _ & _ & Hbs).
  rewrite Hp in Hbs.
  unfold doSplit in Hin. cbn [snd] in Hin.
  set (bs := node_end (ts_builder st) - node_start (ts_builder st)) in *.
  apply in_app_or in Hin. destruct Hin as [Hin|Hin].
  - cbn [In] in Hin.
    destruct Hin as [<-|[<-|[<-|[]]]]; cbn in Hk;
      try discriminate; injection Hk as <-; lia.
  - apply in_app_or in Hin. destruct Hin as [Hin|Hin].
    + apply in_flat_map in Hin. destruct Hin as (c & _ & Hin).
      cbn [In] in Hin.
      destruct Hin as [<-|[<-|[]]]; cbn in Hk;
        try discriminate; injection Hk as <-; lia.
    + cbn [In] in Hin.
      destruct Hin as [<-|[<-|[<-|[<-|[<-|[]]]]]]; cbn in Hk;
        try discriminate; injection Hk as <-; lia.
Qed.



Lemma break_exhausted (st st' : TrainState D) :
  loop_body sz d device st = Break st' ->
  node_end (ts_builder st') = h_total_nodes (ts_builder st') /\
  snd (fst (doSplit sz d device st)) = 0.
Proof.
  intros Hbody. rewrite loop_body_cases in Hbody. cbv zeta in Hbody.
  set (res := doSplit sz d device st) in *. clearbody res.
  destruct res as [[st1 new] ops]. cbn [fst snd] in *.
  destruct ((new =? 0) && _) eqn:E; [|discriminate].
  apply andb_true_iff in E. destruct E as [E0 E1].
  apply Z.eqb_eq in E0. apply Z.eqb_eq in E1.
  injection Hbody as <-. cbn [ts_builder].
  unfold set_frontier. cbn [node_end h_total_nodes]. lia.
Qed.

Lemma break_keeps_end (st st' : TrainState D) :
  loop_body sz d device st = Break st' ->
  node_end (ts_builder st') = node_end (ts_builder st).
Proof.
  intros Hbody. rewrite loop_body_cases in Hbody. cbv zeta in Hbody.
  destruct ((_ =? 0) && _); [|discriminate].
  injection Hbody as <-. reflexivity.
Qed.

Lemma train_loop_tiles b0 fuel :
  1 <= max_batch_size (params b0) ->
  forall (st r : TrainState D),
    frontier_ok b0 (ts_builder st) ->
    node_start (ts_builder st) < node_end (ts_builder st) ->
    train_loop sz d device fuel st = Some r ->
    tiles (node_start (ts_builder st)) (train_batches sz d device fuel st)
          (h_total_nodes (ts_builder r)).
Proof.
  intros Hmb. induction fuel as [|f IH]; intros st r Hf Hne Hrun;
    [discriminate|].
  cbn [train_loop train_batches] in *.
  destruct (column_loop_ends (ts_builder st)); [|discriminate].
  destruct (loop_body sz d device st) as [st'|st'] eqn:Hbody.
  - injection Hrun as <-. cbn [tiles]. split; [reflexivity|]. split; [exact Hne|].
    destruct (break_exhausted st st' Hbody) as [E _].
    rewrite <- E. symmetry. apply break_keeps_end. exact Hbody.
  - cbn [tiles]. split; [reflexivity|]. split; [exact Hne|].
    destruct (continue_advances b0 st st' Hmb Hf Hbody)
      as (Es & Le & _).
    rewrite <- Es. apply IH.
    + eapply continue_frontier; eassumption.
    + lia.
    + exact Hrun.
Qed.

(** X13: with [max_batch_size >= 1], when [train] returns, the frontier
    ranges of its batches are non-empty, start at node 0, follow one another
    without gap or overlap and end at [h_total_nodes]: every node is handed
    to the device in exactly one batch, in order of creation. *)
Theorem X13_train_batches_tile b h dev fuel st nl dp :
  1 <= max_batch_size (params b) ->
  train sz d reg reset device counters fuel b h dev = Some (st, nl, dp) ->
  tiles 0 (train_batches sz d device fuel (fst (init sz d reg reset b h dev)))
        (h_total_nodes (ts_builder st)).
Proof.
  intros Hmb Hrun. apply train_returns in Hrun.
  pose proof (init_ok sz d reg D reset b h dev Hmb) as Hinit.
  cbv zeta in Hinit. destruct Hinit as [Hf _].
  apply (train_loop_tiles b fuel Hmb _ _ Hf); [|exact Hrun].
  cbn. lia.
Qed.


Section Termination.

Variable M : Z.
Hypothesis device_stops :
  forall dev t batch, M <= t -> dr_next_nodes (device dev t batch) = [].




End Termination.

(** X19: with [max_batch_size >= 1], [n_blks_for_cols >= 1] and an occupancy
    of at least one block, the grid of every [computeSplit] launch of
    [train] has all three dimensions at least 1, at most [n_blks_for_cols]
    column blocks and [max_batch_size] nodes, and holds at least
    [maxblks * mpcount] blocks. *)
Theorem X19_computeSplit_grid_valid b h dev st mpcount maxblks c :
  1 <= max_batch_size (params b) -> 1 <= n_blks_for_cols b ->
  1 <= maxblks * mpcount ->
  loop_top sz d reg reset device b h dev st ->
  In c (column_blocks (ts_builder st)) ->
  let bs := node_end (ts_builder st) - node_start (ts_builder st) in
  let colBlks := computeSplit_colBlks (ts_builder st) c in
  let rows := n_blks_for_rows mpcount maxblks colBlks bs in
  computeSplit_grid mpcount maxblks (ts_builder st) c bs = (rows, colBlks, bs) /\
  1 <= rows /\ 1 <= colBlks <= n_blks_for_cols b /\
  1 <= bs <= max_batch_size (params b) /\
  maxblks * mpcount <= rows * (colBlks * bs).
Proof.
  intros Hmb Hncb Hocc Htop Hc. cbv zeta.
  pose proof (loop_top_nonempty b h dev st Hmb Htop) as Hne.
  destruct (loop_top_frontier sz d reg D reset device b h dev st Hmb Htop)
    as (Hp & _ & _ & _ & Hbs).
  rewrite Hp in Hbs.
  pose proof (loop_top_builder b h dev st Htop) as Hb.
  assert (Hn : n_blks_for_cols (ts_builder st) = n_blks_for_cols b)
    by (rewrite Hb; reflexivity).
  apply column_blocks_In in Hc; [|lia].
  assert (Hcb : 1 <= computeSplit_colBlks (ts_builder st) c
                <= n_blks_for_cols b).
  { unfold computeSplit_colBlks. lia. }
  destruct (n_blks_for_rows_bounds mpcount maxblks
              (computeSplit_colBlks (ts_builder st) c)
              (node_end (ts_builder st) - node_start (ts_builder st))
              ltac:(lia) ltac:(lia) ltac:(lia)) as (Hlo & Hhi & _).
  split; [reflexivity|]. split; [nia|]. split; [exact Hcb|].
  split; [lia|exact Hhi].
Qed.

Section Extents.

Hypothesis two_children :
  forall dev t batch,
    (length (dr_next_nodes (device dev t batch)) <= 2 * length batch)%nat.

(** No memset or copy of [init] and [doSplit] is longer than the unaligned
    size of its region. *)
Lemma device_op_capacity b h dev st op r n :
  sizes_positive sz -> sizeof_IdxT sz < 2 ^ 64 ->
  1 <= max_batch_size (params b) ->
  sizeof_NodeT sz * (2 * max_batch_size (params b)) < 2 ^ 64 ->
  loop_top sz d reg reset device b h dev st ->
  In op (snd (init sz d reg reset b h dev) ++ snd (doSplit sz d device st)) ->
  op_extent sz op = Some (r, n) ->
  0 <= n <= region_capacity sz b r.
Proof.
  intros (HI & HB & HS & HN) HI64 Hmb Hfit Htop Hin Hext.
  pose proof (loop_top_nonempty b h dev st Hmb Htop)
    as Hne.
  destruct (loop_top_frontier sz d reg D reset device b h dev st Hmb Htop)
    as (Hp & Hs0 & _ & _ & Hbs).
  rewrite Hp in Hbs.
  pose proof (loop_top_builder b h dev st Htop) as Hb.
  assert (Hnh : nHistBins (ts_builder st) = nHistBins b)
    by (rewrite Hb; reflexivity).
  pose proof (two_children (ts_device st) (h_total_nodes (ts_builder st))
                (batch_of (ts_builder st) (ts_nodes st))) as Hnew.
  assert (Hbatch : (length (batch_of (ts_builder st) (ts_nodes st))
                    <= Z.to_nat (node_end (ts_builder st)
                                 - node_start (ts_builder st)))%nat).
  { unfold batch_of. rewrite length_firstn. lia. }
  assert (Wmb : Raft.wrap (max_batch_size (params b)) = max_batch_size (params b))
    by (apply wrap_small; nia).
  assert (WI : Raft.wrap (sizeof_IdxT sz) = sizeof_IdxT sz)
    by (apply wrap_small; lia).
  assert (WN : Raft.wrap (sizeof_NodeT sz * max_batch_size (params b))
               = sizeof_NodeT sz * max_batch_size (params b))
    by (apply wrap_small; nia).
  assert (WN2 : Raft.wrap (sizeof_NodeT sz * 2) = sizeof_NodeT sz * 2)
    by (apply wrap_small; nia).
  assert (WN3 : Raft.wrap (sizeof_NodeT sz * 2 * max_batch_size (params b))
                = sizeof_NodeT sz * 2 * max_batch_size (params b))
    by (apply wrap_small; nia).
  unfold region_capacity, workspace_regions, region_bytes.
  set (bs := node_end (ts_builder st) - node_start (ts_builder st)) in *.
  assert (Hsame : forall x, 0 <= Raft.wrap x <= Raft.wrap x).
  { intros x. split; [apply (proj1 (wrap_range x))|apply Z.le_refl]. }
  apply in_app_or in Hin. destruct Hin as [Hin|Hin].
  - (* init *)
    unfold init in Hin. cbn [snd] in Hin.
    apply in_app_or in Hin. destruct Hin as [Hin|Hin].
    + cbn [In] in Hin.
      destruct Hin as [<-|[<-|[<-|[<-|[]]]]]; cbn [op_extent] in Hext;
        injection Hext as <- <-; cbn [region_index nth];
        first [apply Hsame | rewrite WI; lia].
    + destruct reg; cbn [In] in Hin; [|destruct Hin].
      destruct Hin as [<-|[]]. cbn [op_extent] in Hext.
      injection Hext as <- <-. cbn [region_index nth]. apply Hsame.
  - (* doSplit *)
    unfold doSplit in Hin. cbn [snd] in Hin. fold bs in Hin.
    apply in_app_or in Hin. destruct Hin as [Hin|Hin].
    + cbn [In] in Hin.
      destruct Hin as [<-|[<-|[<-|[]]]]; cbn [op_extent] in Hext;
        try discriminate; injection Hext as <- <-;
        cbn [region_index nth region_elem]; rewrite ?WI, ?Wmb, ?WN; nia.
    + apply in_app_or in Hin. destruct Hin as [Hin|Hin].
      * apply in_flat_map in Hin. destruct Hin as (c & _ & Hin).
        cbn [In] in Hin.
        destruct Hin as [<-|[<-|[]]]; cbn [op_extent] in Hext;
          try discriminate; injection Hext as <- <-;
          cbn [region_index nth]. rewrite Hnh. apply Hsame.
      * cbn [In] in Hin.
        destruct Hin as [<-|[<-|[<-|[<-|[<-|[]]]]]]; cbn [op_extent] in Hext;
          try discriminate; injection Hext as <- <-;
          cbn [region_index nth region_elem];
          rewrite ?WI, ?Wmb, ?WN, ?WN2, ?WN3; nia.
Qed.

(** X18: when [workspaceSize] has returned [d_wsize], [assignWorkspace] has
    laid the regions out in a buffer at [d_wspace] and the sizes add up
    without wrapping around, every memset and every copy that [init] and
    [doSplit] enqueue during [train] stays inside its own region: it starts
    at the region's pointer, inside the buffer, and ends at or before the
    next region begins (the end of the buffer, for the last region).  The
    device is taken to emit at most two children per batch node. *)
Theorem X18_device_extents_fit
        b0 t s p data labels tr tc sr sc rowids ncl q dw hw d_wsize h_wsize
        h dev st op r n :
  snd (workspaceSize sz b0 t s p data labels tr tc sr sc rowids ncl q)
  = Returned (d_wsize, h_wsize) ->
  let b1 := fst (fst (workspaceSize sz b0 t s p data labels tr tc sr sc
                                    rowids ncl q)) in
  let b2 := assignWorkspace sz b1 dw hw in
  sizes_positive sz -> sizeof_IdxT sz < 2 ^ 64 ->
  1 <= max_batch_size p ->
  sizeof_NodeT sz * (2 * max_batch_size p) < 2 ^ 64 ->
  0 <= dw -> dw + Zsum (map align512 (workspace_regions sz b1)) < 2 ^ 64 ->
  loop_top sz d reg reset device b2 h dev st ->
  In op (snd (init sz d reg reset b2 h dev) ++ snd (doSplit sz d device st)) ->
  op_extent sz op = Some (r, n) ->
  0 <= n /\
  d_wsize = Zsum (map align512 (workspace_regions sz b1)) /\
  dw <= region_start b2 r /\
  region_start b2 r + n <= region_limit b2 (dw + d_wsize) r /\
  region_limit b2 (dw + d_wsize) r <= dw + d_wsize.
Proof.
  intros Hret. cbv zeta.
  assert (Hq : q <> nullptr /\ 1 <= ncl).
  { rewrite workspaceSize_outcome in Hret.
    destruct (q =? nullptr) eqn:E; [discriminate|].
    destruct (1 <=? ncl) eqn:E'; [|discriminate].
    apply Z.eqb_neq in E. apply Z.leb_le in E'. split; assumption. }
  destruct Hq as [Hq Hn].
  rewrite (workspaceSize_reports sz b0 t s p data labels tr tc sr sc rowids
             ncl q Hq Hn) in Hret.
  destruct (workspaceSize_members sz b0 t s p data labels tr tc sr sc rowids
              ncl q Hq Hn) as (Hp & _).
  revert Hret Hp.
  generalize (fst (fst (workspaceSize sz b0 t s p data labels tr tc sr sc
                                      rowids ncl q))).
  intros b1 Hret Hp Hsz HI Hmb HN Hdw Hfit Htop Hin Hext.
  injection Hret as Hd _.
  assert (Hpos : Forall (fun s => 0 <= s) (workspace_regions sz b1)).
  { eapply Forall_impl; [|apply region_bytes_range]. cbn. intros a Ha. lia. }
  assert (Hd' : d_wsize = Zsum (map align512 (workspace_regions sz b1))).
  { rewrite <- Hd. unfold accumulate_aligned.
    pose proof (Zsum_align512_nonneg _ Hpos).
    rewrite accumulate_from_small; [lia|lia|exact Hpos|lia]. }
  assert (Hptr : region_pointers (assignWorkspace sz b1 dw hw)
                 = prefix_sums dw (map align512 (workspace_regions sz b1))).
  { rewrite assignWorkspace_pointers.
    apply bump_offsets_small; [exact Hdw|exact Hpos|exact Hfit]. }
  assert (Hcap : 0 <= n <= region_capacity sz b1 r).
  { apply (device_op_capacity (assignWorkspace sz b1 dw hw) h dev st op r n);
      try assumption.
    - change (params (assignWorkspace sz b1 dw hw)) with (params b1).
      rewrite Hp. exact Hmb.
    - change (params (assignWorkspace sz b1 dw hw)) with (params b1).
      rewrite Hp. exact HN. }
  unfold region_capacity in Hcap.
  unfold region_start, region_limit. rewrite Hptr, Hd'.
  assert (Hk : (region_index r < length (workspace_regions sz b1))%nat)
    by (destruct r; cbn; lia).
  destruct (region_window dw (workspace_regions sz b1) (region_index r) n
              Hpos Hk Hcap) as (H1 & H2 & H3).
  split; [lia|]. split; [reflexivity|]. split; [exact H1|].
  split; [exact H2|exact H3].
Qed.

End Extents.

End TrainFacts.

Lemma X11_doSplit_batch_sizes_witness :
  1 <= 1 <= max_batch_size (params (builder_for params_example 2)).
Proof.
  assert (Hmb : 1 <= max_batch_size (params (builder_for params_example 2)))
    by (vm_compute; discriminate).
  apply (X11_doSplit_batch_sizes sizes_float_int node0 false Z reset_leaves
           split_root_device (builder_for params_example 2) [] 0
           (fst (init sizes_float_int node0 false reset_leaves
                      (builder_for params_example 2) [] 0))
           Hmb (top_init _ _ _ _ _ _ _ _) (LaunchInitSplit 1) 1).
  - vm_compute. right. left. reflexivity.
  - reflexivity.
Defined.


Lemma X13_train_batches_tile_witness :
  tiles 0 (train_batches sizes_float_int node0 split_root_device 2
             (fst (init sizes_float_int node0 false reset_leaves
                        (builder_for params_example 2) [] 0))) 3.
Proof.
  assert (Hmb : 1 <= max_batch_size (params (builder_for params_example 2)))
    by (vm_compute; discriminate).
  destruct (train sizes_float_int node0 false reset_leaves split_root_device
                  leaves_and_depth 2 (builder_for params_example 2) [] 0)
    as [[[st nl] dp]|] eqn:E.
  - pose proof (X13_train_batches_tile sizes_float_int node0 false Z
                  reset_leaves split_root_device leaves_and_depth
                  (builder_for params_example 2) [] 0 2 st nl dp Hmb E) as H.
    vm_compute in E. injection E as <- <- <-. exact H.
  - vm_compute in E. discriminate E.
Defined.

Lemma X18_device_extents_fit_witness :
  let b2 := assignWorkspace sizes_float_int (builder_for params_example 2)
                            1048576 2097152 in
  0 <= 48 /\
  7168 = Zsum (map align512 (workspace_regions sizes_float_int
                               (builder_for params_example 2))) /\
  1048576 <= region_start b2 R_curr_nodes /\
  region_start b2 R_curr_nodes + 48
  <= region_limit b2 (1048576 + 7168) R_curr_nodes /\
  region_limit b2 (1048576 + 7168) R_curr_nodes <= 1048576 + 7168.
Proof.
  apply (X18_device_extents_fit sizes_float_int node0 false Z reset_leaves
           leaf_device
           ltac:(intros dev t batch; cbn; lia)
           builder0 0 0 params_example 4096 8192 10 1 10 1 12288 2 16384
           1048576 2097152 7168 512 [] 0
           (fst (init sizes_float_int node0 false reset_leaves
                      (assignWorkspace sizes_float_int
                         (builder_for params_example 2) 1048576 2097152)
                      [] 0))
           (UpdateDevice R_curr_nodes 1) R_curr_nodes 48).
  - vm_compute. reflexivity.
  - unfold sizes_positive; cbn; lia.
  - vm_compute. reflexivity.
  - vm_compute. discriminate.
  - vm_compute. reflexivity.
  - lia.
  - vm_compute. reflexivity.
  - apply top_init.
  - apply in_or_app. right. vm_compute. right. right. left. reflexivity.
  - reflexivity.
Defined.

Lemma X19_computeSplit_grid_valid_witness :
  let st := fst (init sizes_float_int node0 false reset_leaves
                      (builder_cols 25) [] 0) in
  let bs := node_end (ts_builder st) - node_start (ts_builder st) in
  let colBlks := computeSplit_colBlks (ts_builder st) 20 in
  let rows := n_blks_for_rows 80 2 colBlks bs in
  computeSplit_grid 80 2 (ts_builder st) 20 bs = (rows, colBlks, bs) /\
  1 <= rows /\ 1 <= colBlks <= n_blks_for_cols (builder_cols 25) /\
  1 <= bs <= max_batch_size (params (builder_cols 25)) /\
  2 * 80 <= rows * (colBlks * bs).
Proof.
  apply (X19_computeSplit_grid_valid sizes_float_int node0 false Z
           reset_leaves split_root_device (builder_cols 25) [] 0).
  - vm_compute. discriminate.
  - vm_compute. discriminate.
  - lia.
  - apply top_init.
  - vm_compute. right. right. left. reflexivity.
Defined.
